(** * A command-line weather client: model and verification

    The program (main.py) reads an API credential from the environment,
    queries a weather web service for current conditions and for a
    forecast, and renders the answers as text.

    The embedding follows the source function by function.  Python values
    that travel from the JSON body to the output are modelled by [pyval];
    Python dictionaries are association lists in insertion order; raised
    exceptions are values of [exn]; functions that may raise return a
    [result]; functions that talk to the network or print run in [IO],
    which threads the list of observable events. *)

From Stdlib Require Import ZArith List String Ascii Bool Lia.
From Stdlib Require Import Numbers.DecimalString Floats.SpecFloat.
From ExtLib Require Import Structures.Monad Structures.MonadExc.
Import ListNotations.
Import MonadNotation.

#[local] Set Warnings "-register-all".
#[local] Open Scope string_scope.
#[local] Open Scope Z_scope.
#[local] Open Scope monad_scope.

(* ================================================================== *)
(** ** Python values *)
(* ================================================================== *)

(** The values [json.loads] can produce, which are also the values stored
    in the dictionaries the program builds.  A JSON number without
    fraction or exponent is an [int], any other number a [float]. *)
Inductive pyval : Type :=
| PNone
| PBool (b : bool)
| PInt (z : Z)
| PFloat (f : spec_float)
| PStr (s : string)
| PList (l : list pyval)
| PDict (d : list (string * pyval)).

(** A dictionary with string keys, in insertion order.  Lookup takes the
    first binding of a key. *)
Definition dict : Type := list (string * pyval).

Definition type_name (v : pyval) : string :=
  match v with
  | PNone => "NoneType"
  | PBool _ => "bool"
  | PInt _ => "int"
  | PFloat _ => "float"
  | PStr _ => "str"
  | PList _ => "list"
  | PDict _ => "dict"
  end.

(** The part of the Python runtime that is taken as given: [repr] of a
    float (the shortest decimal that reads back as the same double) and
    [repr] of a string (quoting and escaping). *)
Class PyRuntime : Type := {
  float_repr : spec_float -> string;
  str_repr : string -> string
}.

(** A runtime to evaluate examples in: exact on the strings that need no
    escaping, and on the special floats. *)
Definition plain_float_repr (f : spec_float) : string :=
  match f with
  | S754_zero false => "0.0"
  | S754_zero true => "-0.0"
  | S754_infinity false => "inf"
  | S754_infinity true => "-inf"
  | S754_nan => "nan"
  | S754_finite _ _ _ => "<float>"
  end.

Definition plain_str_repr (s : string) : string := "'" ++ s ++ "'".

#[export] Instance plain_runtime : PyRuntime :=
  {| float_repr := plain_float_repr; str_repr := plain_str_repr |}.

Definition Z_to_string (z : Z) : string := NilZero.string_of_int (Z.to_int z).

Section Formatting.
Context {rt : PyRuntime}.

(** [repr(v)] *)
Fixpoint py_repr (v : pyval) : string :=
  match v with
  | PNone => "None"
  | PBool true => "True"
  | PBool false => "False"
  | PInt z => Z_to_string z
  | PFloat f => float_repr f
  | PStr s => str_repr s
  | PList l =>
      "[" ++ String.concat ", " (map py_repr l) ++ "]"
  | PDict d =>
      "{" ++ String.concat ", "
               (map (fun kv => str_repr (fst kv) ++ ": " ++ py_repr (snd kv)) d)
          ++ "}"
  end.

(** [str(v)], which is what an f-string field [{v}] expands to. *)
Definition py_str (v : pyval) : string :=
  match v with
  | PStr s => s
  | _ => py_repr v
  end.
End Formatting.

(* ================================================================== *)
(** ** Exceptions and results *)
(* ================================================================== *)

(** The subclasses of [requests.RequestException] the request path can
    raise. *)
Inductive request_fault : Type :=
| Timeout
| ConnectionError
| HTTPError
| OtherRequestFault.

Inductive exn : Type :=
| RequestException (k : request_fault) (msg : string)
| JSONDecodeError (msg : string)
| AttributeError (msg : string)
| TypeError (msg : string)
| IndexError (msg : string)
| KeyError (key : pyval)
| RuntimeError (msg : string).

Inductive result (A : Type) : Type :=
| Returned (a : A)
| Raised (e : exn).
Arguments Returned {A} a.
Arguments Raised {A} e.

#[export] Instance Monad_result : Monad result := {|
  ret := fun _ a => Returned a;
  bind := fun _ _ m k =>
    match m with
    | Returned a => k a
    | Raised e => Raised e
    end
|}.

#[export] Instance Exc_result : MonadExc exn result := {|
  raise := fun _ e => Raised e;
  catch := fun _ m h =>
    match m with
    | Returned a => Returned a
    | Raised e => h e
    end
|}.

Section ExnFormatting.
Context {rt : PyRuntime}.

(** [str(e)] *)
Definition exn_str (e : exn) : string :=
  match e with
  | RequestException _ msg => msg
  | JSONDecodeError msg => msg
  | AttributeError msg => msg
  | TypeError msg => msg
  | IndexError msg => msg
  | KeyError key => py_repr key
  | RuntimeError msg => msg
  end.
End ExnFormatting.

(* ================================================================== *)
(** ** Dictionaries, subscripts and slices *)
(* ================================================================== *)

Fixpoint lookup (k : string) (d : dict) : option pyval :=
  match d with
  | [] => None
  | (k', v) :: d' => if String.eqb k k' then Some v else lookup k d'
  end.

(** [k in d] *)
Definition has_key (k : string) (d : dict) : bool :=
  match lookup k d with
  | Some _ => true
  | None => false
  end.

Definition keys (d : dict) : list string := map fst d.

(** [d.get(k, default)] on a dictionary *)
Definition dict_get (d : dict) (k : string) (default : pyval) : pyval :=
  match lookup k d with
  | Some v => v
  | None => default
  end.

(** [d[k]] on a dictionary *)
Definition dict_item (d : dict) (k : string) : result pyval :=
  match lookup k d with
  | Some v => Returned v
  | None => Raised (KeyError (PStr k))
  end.

(** [x.get(k, default)] on any value: only a dictionary has the method. *)
Definition py_get (x : pyval) (k : string) (default : pyval) : result pyval :=
  match x with
  | PDict d => Returned (dict_get d k default)
  | _ => Raised (AttributeError
                   ("'" ++ type_name x ++ "' object has no attribute 'get'"))
  end.

(** Strings are kept as UTF-8 bytes; Python indexes them by code point.
    A byte [10xxxxxx] continues the code point begun before it. *)
Definition is_continuation (c : ascii) : bool :=
  let n := nat_of_ascii c in
  (Nat.leb 128 n && Nat.ltb n 192)%bool.

Fixpoint utf8_split (s : string) : string * list string :=
  match s with
  | EmptyString => (EmptyString, [])
  | String c r =>
      let (pending, cs) := utf8_split r in
      if is_continuation c then (String c pending, cs)
      else (EmptyString, String c pending :: cs)
  end.

(** the code points of a string, each as a one-character string *)
Definition utf8_chars (s : string) : list string := snd (utf8_split s).

(** [l[:n]]: the first [n] items, or for a negative [n] all but the last
    [-n] items. *)
Definition slice_to {A : Type} (n : Z) (l : list A) : list A :=
  if 0 <=? n then firstn (Z.to_nat n) l
  else firstn (Z.to_nat (Z.of_nat (List.length l) + n)) l.

(** [x[0]] on any value *)
Definition py_index0 (x : pyval) : result pyval :=
  match x with
  | PList (v :: _) => Returned v
  | PList [] => Raised (IndexError "list index out of range")
  | PStr s =>
      match utf8_chars s with
      | c :: _ => Returned (PStr c)
      | [] => Raised (IndexError "string index out of range")
      end
  | PDict _ => Raised (KeyError (PInt 0))
  | _ => Raised (TypeError
                   ("'" ++ type_name x ++ "' object is not subscriptable"))
  end.

(** The items a [for] loop visits in [x[:n]].  A dictionary cannot be
    sliced ([TypeError] up to CPython 3.11, a [KeyError] on the slice
    object after it; the first is modelled). *)
Definition py_slice_items (x : pyval) (n : Z) : result (list pyval) :=
  match x with
  | PList l => Returned (slice_to n l)
  | PStr s => Returned (map PStr (slice_to n (utf8_chars s)))
  | PDict _ => Raised (TypeError "unhashable type: 'slice'")
  | _ => Raised (TypeError
                   ("'" ++ type_name x ++ "' object is not subscriptable"))
  end.

(** A [for] loop that appends one computed item per visited element. *)
Fixpoint for_each {A B : Type} (body : A -> result B) (l : list A)
  : result (list B) :=
  match l with
  | [] => ret []
  | x :: l' =>
      y <- body x ;;
      ys <- for_each body l' ;;
      ret (y :: ys)
  end.

(* ================================================================== *)
(** ** The network and the observable events *)
(* ================================================================== *)

(** What [requests.get(url, params=params, timeout=timeout)] is called
    with. *)
Record request : Type := {
  req_url : string;
  req_params : list (string * string);
  req_timeout : Z
}.

(** The body of a response as [resp.json()] sees it. *)
Inductive body : Type :=
| JsonBody (v : pyval)
| NotJson (msg : string).

Record response : Type := {
  status_code : Z;
  reason : string;
  resp_url : string;
  resp_body : body
}.

(** What happens to a request: the transport fails (the library raises a
    [RequestException]: timeout, connection failure, ...), or a response
    arrives. *)
Inductive http_outcome : Type :=
| TransportFault (k : request_fault) (msg : string)
| Responded (r : response).

Inductive event : Type :=
| EGet (r : request)
| EPrint (text : string).

(** The world outside the process: the outcome of each request, which
    may depend on everything the process did before. *)
Definition network : Type := list event -> request -> http_outcome.

(** Computations that use the network or print: they read the network,
    extend the event log and return or raise. *)
Definition IO (A : Type) : Type := network -> list event -> result A * list event.

#[export] Instance Monad_IO : Monad IO := {|
  ret := fun _ a => fun _ log => (Returned a, log);
  bind := fun _ _ m k => fun net log =>
    match m net log with
    | (Returned a, log') => k a net log'
    | (Raised e, log') => (Raised e, log')
    end
|}.

#[export] Instance Exc_IO : MonadExc exn IO := {|
  raise := fun _ e => fun _ log => (Raised e, log);
  catch := fun _ m h => fun net log =>
    match m net log with
    | (Returned a, log') => (Returned a, log')
    | (Raised e, log') => h e net log'
    end
|}.

(** a computation that only returns or raises, run inside [IO] *)
Definition lift {A : Type} (r : result A) : IO A := fun _ log => (r, log).

Definition newline : string := String (ascii_of_nat 10) EmptyString.

(** [print(text)]: the text and a line end reach standard output. *)
Definition print (text : string) : IO unit :=
  fun _ log => (Returned tt, (log ++ [EPrint (text ++ newline)])%list).

(** [requests.get]: the request is observed, then the transport fault is
    raised or the response returned. *)
Definition requests_get (url : string) (params : list (string * string))
    (timeout : Z) : IO response :=
  fun net log =>
    let req := {| req_url := url; req_params := params; req_timeout := timeout |} in
    match net log req with
    | TransportFault k msg => (Raised (RequestException k msg), (log ++ [EGet req])%list)
    | Responded r => (Returned r, (log ++ [EGet req])%list)
    end.

(** [resp.raise_for_status()] of the requests library: a status from 400
    to 499 is a client error, one from 500 to 599 a server error, and
    both raise [HTTPError]; every other status passes. *)
Definition raise_for_status (r : response) : result unit :=
  if (400 <=? status_code r) && (status_code r <? 500) then
    Raised (RequestException HTTPError
              (Z_to_string (status_code r) ++ " Client Error: " ++ reason r
                 ++ " for url: " ++ resp_url r))
  else if (500 <=? status_code r) && (status_code r <? 600) then
    Raised (RequestException HTTPError
              (Z_to_string (status_code r) ++ " Server Error: " ++ reason r
                 ++ " for url: " ++ resp_url r))
  else Returned tt.

(** [resp.json()] *)
Definition resp_json (r : response) : result pyval :=
  match resp_body r with
  | JsonBody v => Returned v
  | NotJson msg => Raised (JSONDecodeError msg)
  end.

(** [try: body / except requests.RequestException as e: handler].  The
    bodies guarded in this program raise nothing but what [requests.get]
    and [raise_for_status] raise. *)
Definition try_except_request {A : Type} (body : IO A) (handler : exn -> IO A)
  : IO A :=
  catch body
    (fun e => match e with
              | RequestException _ _ => handler e
              | _ => raise e
              end).

(* ================================================================== *)
(** ** The program *)
(* ================================================================== *)

Definition BASE_URL : string := "https://api.openweathermap.org/data/2.5".

Section Program.
Context {rt : PyRuntime}.

(** The module-level [API_KEY], checked to be non-empty before any
    function is defined, is passed to the functions that read it. *)
Variable API_KEY : string.

Definition fetch_weather_current (city units : string) : IO dict :=
  let url := BASE_URL ++ "/weather" in
  let params := [("q", city); ("appid", API_KEY); ("units", units)] in
  attempt <- try_except_request
               (resp <- requests_get url params 10 ;;
                lift (raise_for_status resp) ;;
                ret (inl resp))
               (fun e => ret (inr [("error", PStr ("Request failed: " ++ exn_str e))])) ;;
  match attempt with
  | inr early => ret early
  | inl resp =>
      data <- lift (resp_json resp) ;;
      main <- lift (py_get data "main" (PDict [])) ;;
      weathers <- lift (py_get data "weather" (PList [PDict []])) ;;
      weather <- lift (py_index0 weathers) ;;
      wind <- lift (py_get data "wind" (PDict [])) ;;
      name <- lift (py_get data "name" PNone) ;;
      sys <- lift (py_get data "sys" (PDict [])) ;;
      country <- lift (py_get sys "country" PNone) ;;
      temp <- lift (py_get main "temp" PNone) ;;
      feels_like <- lift (py_get main "feels_like" PNone) ;;
      humidity <- lift (py_get main "humidity" PNone) ;;
      pressure <- lift (py_get main "pressure" PNone) ;;
      weather_main <- lift (py_get weather "main" PNone) ;;
      weather_desc <- lift (py_get weather "description" PNone) ;;
      wind_speed <- lift (py_get wind "speed" PNone) ;;
      ret [("city", name);
           ("country", country);
           ("temp", temp);
           ("feels_like", feels_like);
           ("humidity", humidity);
           ("pressure", pressure);
           ("weather_main", weather_main);
           ("weather_desc", weather_desc);
           ("wind_speed", wind_speed)]
  end.

(** the body of the loop of [fetch_weather_forecast] *)
Definition forecast_entry (entry : pyval) : result pyval :=
  main <- py_get entry "main" (PDict []) ;;
  weathers <- py_get entry "weather" (PList [PDict []]) ;;
  weather <- py_index0 weathers ;;
  wind <- py_get entry "wind" (PDict []) ;;
  dt_txt <- py_get entry "dt_txt" PNone ;;
  temp <- py_get main "temp" PNone ;;
  feels_like <- py_get main "feels_like" PNone ;;
  humidity <- py_get main "humidity" PNone ;;
  pressure <- py_get main "pressure" PNone ;;
  weather_main <- py_get weather "main" PNone ;;
  weather_desc <- py_get weather "description" PNone ;;
  wind_speed <- py_get wind "speed" PNone ;;
  ret (PDict [("datetime", dt_txt);
              ("temp", temp);
              ("feels_like", feels_like);
              ("humidity", humidity);
              ("pressure", pressure);
              ("weather_main", weather_main);
              ("weather_desc", weather_desc);
              ("wind_speed", wind_speed)]).

Definition fetch_weather_forecast (city : string) (cnt : Z) (units : string)
  : IO dict :=
  let url := BASE_URL ++ "/forecast" in
  let params := [("q", city); ("appid", API_KEY); ("units", units)] in
  attempt <- try_except_request
               (resp <- requests_get url params 10 ;;
                lift (raise_for_status resp) ;;
                ret (inl resp))
               (fun e => ret (inr [("error", PStr ("Request failed: " ++ exn_str e))])) ;;
  match attempt with
  | inr early => ret early
  | inl resp =>
      data <- lift (resp_json resp) ;;
      raw_list <- lift (py_get data "list" (PList [])) ;;
      items <- lift (py_slice_items raw_list cnt) ;;
      forecasts <- lift (for_each forecast_entry items) ;;
      city_obj <- lift (py_get data "city" (PDict [])) ;;
      name <- lift (py_get city_obj "name" PNone) ;;
      city_obj' <- lift (py_get data "city" (PDict [])) ;;
      country <- lift (py_get city_obj' "country" PNone) ;;
      ret [("city", name);
           ("country", country);
           ("forecasts", PList forecasts)]
  end.

Definition pretty_current (d : dict) : result string :=
  if has_key "error" d then
    e <- dict_item d "error" ;;
    ret ("Error: " ++ py_str e)
  else
    city <- dict_item d "city" ;;
    country <- dict_item d "country" ;;
    weather_main <- dict_item d "weather_main" ;;
    weather_desc <- dict_item d "weather_desc" ;;
    temp <- dict_item d "temp" ;;
    feels_like <- dict_item d "feels_like" ;;
    humidity <- dict_item d "humidity" ;;
    pressure <- dict_item d "pressure" ;;
    wind_speed <- dict_item d "wind_speed" ;;
    ret ("📍 " ++ py_str city ++ ", " ++ py_str country ++ newline
         ++ "🌤️  " ++ py_str weather_main ++ " - " ++ py_str weather_desc ++ newline
         ++ "🌡️  Temp: " ++ py_str temp ++ "°C (feels like "
         ++ py_str feels_like ++ "°C)" ++ newline
         ++ "💧 Humidity: " ++ py_str humidity ++ "% | Pressure: "
         ++ py_str pressure ++ " hPa" ++ newline
         ++ "💨 Wind speed: " ++ py_str wind_speed ++ " m/s" ++ newline).

(** the body of the loop of [pretty_forecast] *)
Definition forecast_line (entry : pyval) : result string :=
  dt_txt <- py_get entry "datetime" PNone ;;
  temp <- py_get entry "temp" PNone ;;
  desc <- py_get entry "weather_desc" PNone ;;
  ret (py_str dt_txt ++ ": " ++ py_str temp ++ "°C, " ++ py_str desc).

Definition pretty_forecast (fc : dict) (show_n : Z) : result string :=
  if has_key "error" fc then
    e <- dict_item fc "error" ;;
    ret ("Error: " ++ py_str e)
  else
    items <- py_slice_items (dict_get fc "forecasts" (PList [])) show_n ;;
    out <- for_each forecast_line items ;;
    ret (match out with
         | [] => "No forecast data."
         | _ :: _ => String.concat newline out
         end).

(** The command line after [argparse]: the city, [--forecast] and
    [--entries] (5 when not given). *)
Record args : Type := {
  arg_city : string;
  arg_forecast : bool;
  arg_entries : Z
}.

Definition main (a : args) : IO unit :=
  catch
    (current <- fetch_weather_current (arg_city a) "metric" ;;
     text <- lift (pretty_current current) ;;
     print text ;;
     if arg_forecast a then
       print (newline ++ "🔮 Forecast:") ;;
       forecast <- fetch_weather_forecast (arg_city a) (arg_entries a) "metric" ;;
       text' <- lift (pretty_forecast forecast (arg_entries a)) ;;
       print text'
     else ret tt)
    (fun e => print ("Unexpected error: " ++ exn_str e)).
End Program.

(** [os.environ]: a dictionary from names to values *)
Definition environ : Type := list (string * string).

Fixpoint os_getenv (env : environ) (k : string) : option string :=
  match env with
  | [] => None
  | (k', v) :: env' => if String.eqb k k' then Some v else os_getenv env' k
  end.

(** [load_dotenv()]: every variable of the .env file that the environment
    does not already define is added to it. *)
Definition load_dotenv (dotenv : environ) (env : environ) : environ :=
  (env ++ dotenv)%list.

(** [not v] for a value that is [None] or a string *)
Definition falsy (v : option string) : bool :=
  match v with
  | None => true
  | Some s => String.eqb s ""
  end.

Definition missing_key_message : string :=
  "❌ Missing OPENWEATHER_API_KEY in .env file".

Section Process.
Context {rt : PyRuntime}.

(** Running the script: the module body, then [main()]. *)
Definition script (env dotenv : environ) (a : args) : IO unit :=
  let env' := load_dotenv dotenv env in
  let API_KEY := os_getenv env' "OPENWEATHER_API_KEY" in
  if falsy API_KEY then raise (RuntimeError missing_key_message)
  else
    match API_KEY with
    | Some key => main key a
    | None => raise (RuntimeError missing_key_message)
    end.

(** One run of the process from an empty event log. *)
Definition run (net : network) (env dotenv : environ) (a : args)
  : result unit * list event :=
  script env dotenv a net [].
End Process.

(* ================================================================== *)
(** ** Definitions used to state the properties *)
(* ================================================================== *)

(** The dictionary the fetchers return when the request fails. *)
Definition error_result (message : string) : dict := [("error", PStr message)].

(** The requests the two fetchers send. *)
Definition weather_request (key city units : string) : request :=
  {| req_url := "https://api.openweathermap.org/data/2.5/weather";
     req_params := [("q", city); ("appid", key); ("units", units)];
     req_timeout := 10 |}.

Definition forecast_request (key city units : string) : request :=
  {| req_url := "https://api.openweathermap.org/data/2.5/forecast";
     req_params := [("q", city); ("appid", key); ("units", units)];
     req_timeout := 10 |}.

(** A request fails when the transport fails or the status is a client
    or server error. *)
Definition is_request_failure (o : http_outcome) : bool :=
  match o with
  | TransportFault _ _ => true
  | Responded r => (400 <=? status_code r) && (status_code r <? 600)
  end.

Definition describe_failure (o : http_outcome) : string :=
  match o with
  | TransportFault _ msg => msg
  | Responded r =>
      Z_to_string (status_code r)
        ++ (if status_code r <? 500 then " Client Error: " else " Server Error: ")
        ++ reason r ++ " for url: " ++ resp_url r
  end.

Definition is_2xx (r : response) : bool :=
  (200 <=? status_code r) && (status_code r <? 300).

Definition is_dict (v : pyval) : bool :=
  match v with
  | PDict _ => true
  | _ => false
  end.

(** a non-empty list whose first item is an object *)
Definition is_conditions (v : pyval) : bool :=
  match v with
  | PList (PDict _ :: _) => true
  | _ => false
  end.

(** key [k] is missing from [d], or bound to a value of the right shape *)
Definition absent_or (shape : pyval -> bool) (d : dict) (k : string) : bool :=
  match lookup k d with
  | None => true
  | Some v => shape v
  end.

(** An object with the sub-objects of a weather report: each of "main",
    "weather" and "wind" is missing or has the upstream shape. *)
Definition weather_shaped (v : pyval) : bool :=
  match v with
  | PDict d =>
      absent_or is_dict d "main" && absent_or is_conditions d "weather"
      && absent_or is_dict d "wind"
  | _ => false
  end.

Definition current_shaped (v : pyval) : bool :=
  weather_shaped v
  && match v with
     | PDict d => absent_or is_dict d "sys"
     | _ => false
     end.

(** The value of key [k] of a sub-object, null when the sub-object or
    the key is missing. *)
Definition opt_field (sub : option pyval) (k : string) : pyval :=
  match sub with
  | Some (PDict d) =>
      match lookup k d with
      | Some v => v
      | None => PNone
      end
  | _ => PNone
  end.

(** the primary weather condition of a report, if it has one *)
Definition first_condition (d : dict) : option pyval :=
  match lookup "weather" d with
  | Some (PList (c :: _)) => Some c
  | _ => None
  end.

(** The record of current conditions read off a report. *)
Definition current_record (d : dict) : dict :=
  [("city", opt_field (Some (PDict d)) "name");
   ("country", opt_field (lookup "sys" d) "country");
   ("temp", opt_field (lookup "main" d) "temp");
   ("feels_like", opt_field (lookup "main" d) "feels_like");
   ("humidity", opt_field (lookup "main" d) "humidity");
   ("pressure", opt_field (lookup "main" d) "pressure");
   ("weather_main", opt_field (first_condition d) "main");
   ("weather_desc", opt_field (first_condition d) "description");
   ("wind_speed", opt_field (lookup "wind" d) "speed")].

(** The record of one forecast entry. *)
Definition entry_record (entry : pyval) : pyval :=
  match entry with
  | PDict d =>
      PDict [("datetime", opt_field (Some entry) "dt_txt");
             ("temp", opt_field (lookup "main" d) "temp");
             ("feels_like", opt_field (lookup "main" d) "feels_like");
             ("humidity", opt_field (lookup "main" d) "humidity");
             ("pressure", opt_field (lookup "main" d) "pressure");
             ("weather_main", opt_field (first_condition d) "main");
             ("weather_desc", opt_field (first_condition d) "description");
             ("wind_speed", opt_field (lookup "wind" d) "speed")]
  | _ => PNone
  end.

Definition current_keys : list string :=
  ["city"; "country"; "temp"; "feels_like"; "humidity"; "pressure";
   "weather_main"; "weather_desc"; "wind_speed"].

Definition forecast_keys : list string := ["city"; "country"; "forecasts"].

(** [needle in hay] on strings *)
Fixpoint contains (needle hay : string) : bool :=
  prefix needle hay
  || match hay with
     | EmptyString => false
     | String _ rest => contains needle rest
     end.

Definition is_get (e : event) : bool :=
  match e with
  | EGet _ => true
  | EPrint _ => false
  end.

Section Rendering.
Context {rt : PyRuntime}.

(** The line of one forecast entry, as the presenter writes it. *)
Definition rendered_line (entry : pyval) : string :=
  py_str (opt_field (Some entry) "datetime") ++ ": "
    ++ py_str (opt_field (Some entry) "temp") ++ "°C, "
    ++ py_str (opt_field (Some entry) "weather_desc").

(** The line of one forecast entry in the words of the specification:
    "{timestamp}: {temperature}°, {description}". *)
Definition spec_line (entry : pyval) : string :=
  py_str (opt_field (Some entry) "datetime") ++ ": "
    ++ py_str (opt_field (Some entry) "temp") ++ "°, "
    ++ py_str (opt_field (Some entry) "weather_desc").

(** The forecast text in the words of the specification: the lines of
    the first [show_count] entries, joined with newlines. *)
Definition spec_forecast_text (entries : list pyval) (show_count : Z) : string :=
  String.concat newline (map spec_line (firstn (Z.to_nat show_count) entries)).
End Rendering.

Section Readers.
(** What [fetch_weather_current] reads off a decoded body. *)
Definition read_current (data : pyval) : result dict :=
  main <- py_get data "main" (PDict []) ;;
  weathers <- py_get data "weather" (PList [PDict []]) ;;
  weather <- py_index0 weathers ;;
  wind <- py_get data "wind" (PDict []) ;;
  name <- py_get data "name" PNone ;;
  sys <- py_get data "sys" (PDict []) ;;
  country <- py_get sys "country" PNone ;;
  temp <- py_get main "temp" PNone ;;
  feels_like <- py_get main "feels_like" PNone ;;
  humidity <- py_get main "humidity" PNone ;;
  pressure <- py_get main "pressure" PNone ;;
  weather_main <- py_get weather "main" PNone ;;
  weather_desc <- py_get weather "description" PNone ;;
  wind_speed <- py_get wind "speed" PNone ;;
  ret [("city", name); ("country", country); ("temp", temp);
       ("feels_like", feels_like); ("humidity", humidity);
       ("pressure", pressure); ("weather_main", weather_main);
       ("weather_desc", weather_desc); ("wind_speed", wind_speed)].

(** What [fetch_weather_forecast] reads off a decoded body. *)
Definition read_forecast (cnt : Z) (data : pyval) : result dict :=
  raw_list <- py_get data "list" (PList []) ;;
  items <- py_slice_items raw_list cnt ;;
  forecasts <- for_each forecast_entry items ;;
  city_obj <- py_get data "city" (PDict []) ;;
  name <- py_get city_obj "name" PNone ;;
  country <- py_get city_obj "country" PNone ;;
  ret [("city", name); ("country", country); ("forecasts", PList forecasts)].

(** The answer of a fetcher to the outcome of its request, given what
    it reads off a decoded body. *)
Definition answer (read : pyval -> result dict) (o : http_outcome) : result dict :=
  if is_request_failure o
  then Returned (error_result ("Request failed: " ++ describe_failure o))
  else match o with
       | Responded r => data <- resp_json r ;; read data
       | TransportFault _ _ => Returned []
       end.
End Readers.

(* ================================================================== *)
(** ** Sample inputs *)
(* ================================================================== *)

Definition not_modified : response :=
  {| status_code := 304;
     reason := "Not Modified";
     resp_url := "https://api.openweathermap.org/data/2.5/weather?q=Lahore";
     resp_body := NotJson "Expecting value: line 1 column 1 (char 0)" |}.

Definition not_found : response :=
  {| status_code := 404;
     reason := "Not Found";
     resp_url := "https://api.openweathermap.org/data/2.5/weather?q=Nowhere";
     resp_body := JsonBody (PDict [("cod", PStr "404");
                                   ("message", PStr "city not found")]) |}.

Definition ok (v : pyval) : response :=
  {| status_code := 200; reason := "OK"; resp_url := ""; resp_body := JsonBody v |}.

(** a network that answers every request the same way *)
Definition always (o : http_outcome) : network := fun _ _ => o.

(** a report without wind and without weather conditions *)
Definition lahore_report : dict :=
  [("name", PStr "Lahore");
   ("sys", PDict [("country", PStr "PK")]);
   ("main", PDict [("temp", PInt 31); ("humidity", PInt 40)])].

Definition forecast_item (dt_txt : string) (temp : Z) : pyval :=
  PDict [("dt_txt", PStr dt_txt);
         ("main", PDict [("temp", PInt temp)]);
         ("weather", PList [PDict [("description", PStr "clear sky")]])].

Definition two_items : list pyval :=
  [forecast_item "2024-01-01 00:00:00" 5; forecast_item "2024-01-01 03:00:00" 4].

Definition two_item_forecast : dict :=
  [("city", PDict [("name", PStr "Lahore"); ("country", PStr "PK")]);
   ("list", PList two_items)].

(** A forecast result with one entry. *)
Definition one_entry_forecast : dict :=
  [("city", PStr "Lahore");
   ("country", PStr "PK");
   ("forecasts",
    PList [PDict [("datetime", PStr "2024-01-01 00:00:00");
                  ("temp", PInt 5);
                  ("feels_like", PInt 3);
                  ("humidity", PInt 40);
                  ("pressure", PInt 1012);
                  ("weather_main", PStr "Clear");
                  ("weather_desc", PStr "clear sky");
                  ("wind_speed", PInt 2)]])].

Definition one_entry : list pyval :=
  match lookup "forecasts" one_entry_forecast with
  | Some (PList l) => l
  | _ => []
  end.

(** the entries that are not objects *)
Definition non_objects (entries : list pyval) : list pyval :=
  filter (fun e => negb (is_dict e)) entries.

(** A report with two weather conditions and keys the client does not
    read. *)
Definition karachi_report : dict :=
  [("coord", PDict [("lon", PInt 67); ("lat", PInt 24)]);
   ("weather", PList [PDict [("main", PStr "Haze"); ("description", PStr "haze")];
                      PDict [("main", PStr "Dust"); ("description", PStr "dust")]]);
   ("main", PDict [("temp", PInt 29); ("feels_like", PInt 31);
                   ("humidity", PInt 70); ("pressure", PInt 1008)]);
   ("wind", PDict [("speed", PInt 4)]);
   ("sys", PDict [("country", PStr "PK")]);
   ("name", PStr "Karachi")].

Definition karachi_report_primary : dict :=
  [("weather", PList [PDict [("main", PStr "Haze"); ("description", PStr "haze")]]);
   ("main", PDict [("temp", PInt 29); ("feels_like", PInt 31);
                   ("humidity", PInt 70); ("pressure", PInt 1008)]);
   ("wind", PDict [("speed", PInt 4)]);
   ("sys", PDict [("country", PStr "PK")]);
   ("name", PStr "Karachi")].

(** A forecast whose second entry is null. *)
Definition broken_forecast : dict :=
  [("city", PDict [("name", PStr "Lahore")]);
   ("list", PList [forecast_item "2024-01-01 00:00:00" 5; PNone])].

(** a network that answers the two endpoints differently *)
Definition by_endpoint (current forecast : http_outcome) : network :=
  fun _ req =>
    if String.eqb (req_url req) "https://api.openweathermap.org/data/2.5/weather"
    then current else forecast.

Definition lahore_args (forecast : bool) (entries : Z) : args :=
  {| arg_city := "Lahore"; arg_forecast := forecast; arg_entries := entries |}.

Section Traces.
Context {rt : PyRuntime}.

(** what the top-level handler of [main] prints *)
Definition unexpected (e : exn) : event :=
  EPrint (("Unexpected error: " ++ exn_str e) ++ newline).

Definition forecast_header : event :=
  EPrint ((newline ++ "🔮 Forecast:") ++ newline).

(** The events of the forecast part of [main], begun with log [log]. *)
Definition forecast_trace (key : string) (a : args) (net : network)
    (log : list event) : list event :=
  let req := forecast_request key (arg_city a) "metric" in
  EGet req ::
    match answer (read_forecast (arg_entries a)) (net log req) with
    | Raised e => [unexpected e]
    | Returned fc =>
        match pretty_forecast fc (arg_entries a) with
        | Raised e => [unexpected e]
        | Returned text => [EPrint (text ++ newline)]
        end
    end.

(** The events of [main], begun with log [log]. *)
Definition main_trace (key : string) (a : args) (net : network)
    (log : list event) : list event :=
  let req := weather_request key (arg_city a) "metric" in
  EGet req ::
    match answer read_current (net log req) with
    | Raised e => [unexpected e]
    | Returned d =>
        match pretty_current d with
        | Raised e => [unexpected e]
        | Returned text =>
            EPrint (text ++ newline) ::
              (if arg_forecast a
               then forecast_header ::
                      forecast_trace key a net
                        (log ++ [EGet req; EPrint (text ++ newline); forecast_header])
               else [])
        end
    end.
End Traces.

(* ================================================================== *)
(** ** General facts *)
(* ================================================================== *)

Lemma slice_to_nonneg {A : Type} (n : Z) (l : list A) :
  0 <= n -> slice_to n l = firstn (Z.to_nat n) l.
Proof.
  intros Hn. unfold slice_to.
  destruct (Z.leb_spec 0 n); [reflexivity | lia].
Qed.

Lemma slice_to_zero {A : Type} (l : list A) : slice_to 0 l = [].
Proof. reflexivity. Qed.

Lemma slice_to_all {A : Type} (n : Z) (l : list A) :
  Z.of_nat (List.length l) <= n -> slice_to n l = l.
Proof.
  intros Hn. rewrite slice_to_nonneg by lia.
  apply firstn_all2. lia.
Qed.

Lemma slice_to_negative {A : Type} (n : Z) (l : list A) :
  n < 0 -> slice_to n l = firstn (List.length l - Z.to_nat (- n)) l.
Proof.
  intros Hn. unfold slice_to.
  destruct (Z.leb_spec 0 n); [lia |].
  f_equal. lia.
Qed.

Lemma for_each_map {A B : Type} (body : A -> result B) (f : A -> B) (l : list A) :
  (forall x, In x l -> body x = Returned (f x)) ->
  for_each body l = Returned (map f l).
Proof.
  induction l as [| x l IH]; intros Hbody.
  - reflexivity.
  - cbn [for_each map]. rewrite (Hbody x (or_introl eq_refl)).
    cbn [bind Monad_result]. rewrite IH.
    + reflexivity.
    + intros y Hy. apply Hbody. right. exact Hy.
Qed.

Lemma for_each_length {A B : Type} (body : A -> result B) (l : list A) (out : list B) :
  for_each body l = Returned out -> List.length out = List.length l.
Proof.
  revert out. induction l as [| x l IH]; intros out H.
  - inversion H. reflexivity.
  - cbn in H. destruct (body x) as [y | e]; [| discriminate].
    destruct (for_each body l) as [ys | e]; [| discriminate].
    inversion H; subst. cbn. f_equal. apply IH. reflexivity.
Qed.

Lemma lookup_has_key (k : string) (d : dict) :
  has_key k d = true <-> In k (keys d).
Proof.
  unfold has_key. induction d as [| [k' v] d IH]; cbn.
  - split; [discriminate | tauto].
  - destruct (String.eqb_spec k k') as [-> | Hne].
    + split; auto.
    + rewrite IH. split; [auto | intros [Heq | Hin]; [congruence | exact Hin]].
Qed.

Lemma raise_for_status_spec (r : response) :
  raise_for_status r =
    if is_request_failure (Responded r)
    then Raised (RequestException HTTPError (describe_failure (Responded r)))
    else Returned tt.
Proof.
  unfold raise_for_status, is_request_failure, describe_failure.
  destruct (Z.leb_spec 400 (status_code r)), (Z.ltb_spec (status_code r) 500),
    (Z.leb_spec 500 (status_code r)), (Z.ltb_spec (status_code r) 600);
    cbn [andb]; try reflexivity; lia.
Qed.

(** Case analysis on every result that a chain of binds inspects. *)
Ltac split_results :=
  repeat match goal with
         | |- context [match ?x with Returned _ => _ | Raised _ => _ end] =>
             destruct x; cbn [bind ret Monad_result]
         end.

Section FetcherFacts.
Context {rt : PyRuntime}.
Variables (key city units : string) (net : network) (log : list event).

Lemma fetch_weather_current_run :
  fetch_weather_current key city units net log =
    (answer read_current (net log (weather_request key city units)),
     (log ++ [EGet (weather_request key city units)])%list).
Proof.
  unfold fetch_weather_current, try_except_request, requests_get, answer.
  cbn [bind ret catch raise Monad_IO Exc_IO lift].
  change {| req_url := BASE_URL ++ "/weather";
            req_params := [("q", city); ("appid", key); ("units", units)];
            req_timeout := 10 |}
    with (weather_request key city units).
  destruct (net log (weather_request key city units)) as [k msg | r].
  - reflexivity.
  - rewrite raise_for_status_spec.
    destruct (is_request_failure (Responded r)); [reflexivity |].
    unfold read_current. cbn [bind ret Monad_result].
    split_results; reflexivity.
Qed.

Lemma fetch_weather_forecast_run (cnt : Z) :
  fetch_weather_forecast key city cnt units net log =
    (answer (read_forecast cnt) (net log (forecast_request key city units)),
     (log ++ [EGet (forecast_request key city units)])%list).
Proof.
  unfold fetch_weather_forecast, try_except_request, requests_get, answer.
  cbn [bind ret catch raise Monad_IO Exc_IO lift].
  change {| req_url := BASE_URL ++ "/forecast";
            req_params := [("q", city); ("appid", key); ("units", units)];
            req_timeout := 10 |}
    with (forecast_request key city units).
  destruct (net log (forecast_request key city units)) as [k msg | r].
  - reflexivity.
  - rewrite raise_for_status_spec.
    destruct (is_request_failure (Responded r)); [reflexivity |].
    unfold read_forecast. cbn [bind ret Monad_result].
    split_results; reflexivity.
Qed.
End FetcherFacts.

(* ================================================================== *)
(** ** The presenters *)
(* ================================================================== *)

Section PresenterFacts.
Context {rt : PyRuntime}.

Lemma forecast_line_of_dict (entry : pyval) :
  is_dict entry = true -> forecast_line entry = Returned (rendered_line entry).
Proof.
  destruct entry; try discriminate. intros _. reflexivity.
Qed.

Lemma for_each_forecast_line (entries : list pyval) :
  forallb is_dict entries = true ->
  for_each forecast_line entries = Returned (map rendered_line entries).
Proof.
  intros Hall. apply for_each_map. intros e He.
  apply forecast_line_of_dict.
  rewrite forallb_forall in Hall. apply Hall. exact He.
Qed.

Lemma forallb_firstn {A : Type} (p : A -> bool) (n : nat) (l : list A) :
  forallb p l = true -> forallb p (firstn n l) = true.
Proof.
  revert l. induction n as [| n IH]; intros [| x l] H; try reflexivity.
  cbn in *. apply andb_true_iff in H as [Hx Hl].
  rewrite Hx. cbn. apply IH. exact Hl.
Qed.

Lemma forallb_slice_to {A : Type} (p : A -> bool) (n : Z) (l : list A) :
  forallb p l = true -> forallb p (slice_to n l) = true.
Proof.
  intros H. unfold slice_to. destruct (0 <=? n); apply forallb_firstn; exact H.
Qed.

(** What [pretty_forecast] returns for a dictionary without the error
    key whose forecasts are records. *)
Lemma pretty_forecast_records (fc : dict) (entries : list pyval) (show_n : Z) :
  has_key "error" fc = false ->
  dict_get fc "forecasts" (PList []) = PList entries ->
  forallb is_dict entries = true ->
  pretty_forecast fc show_n =
    Returned (match slice_to show_n entries with
              | [] => "No forecast data."
              | _ :: _ => String.concat newline
                            (map rendered_line (slice_to show_n entries))
              end).
Proof.
  intros Herr Hget Hall. unfold pretty_forecast.
  rewrite Herr, Hget. cbn [py_slice_items bind ret Monad_result].
  rewrite for_each_forecast_line by (apply forallb_slice_to; exact Hall).
  destruct (slice_to show_n entries); reflexivity.
Qed.

(** C6: for every error result with message [m], [pretty_current]
    returns exactly "Error: m", and so does [pretty_forecast] whatever
    the number of entries to show; on the message "boom" the text is
    "Error: boom". *)
Theorem pretty_error_result (m : string) (show_n : Z) :
  pretty_current (error_result m) = Returned ("Error: " ++ m)
  /\ pretty_forecast (error_result m) show_n = Returned ("Error: " ++ m)
  /\ pretty_current (error_result "boom") = Returned "Error: boom".
Proof.
  repeat split; reflexivity.
Qed.

(** C7: for a forecast result that is not an error, when no entry is
    left after the presenter has cut the entries to [show_n], the text
    is exactly the placeholder "No forecast data." *)
Theorem pretty_forecast_placeholder (fc : dict) (entries : list pyval) (show_n : Z) :
  has_key "error" fc = false ->
  dict_get fc "forecasts" (PList []) = PList entries ->
  slice_to show_n entries = [] ->
  pretty_forecast fc show_n = Returned "No forecast data.".
Proof.
  intros Herr Hget Hcut. unfold pretty_forecast.
  rewrite Herr, Hget. cbn [py_slice_items bind ret Monad_result].
  rewrite Hcut. reflexivity.
Qed.

(** C5, amended: for a forecast result with at least one entry and a
    positive [show_n], [pretty_forecast] takes the first [show_n]
    entries, writes each as "{timestamp}: {temperature}°C, {description}"
    and joins the lines with newlines. *)
Theorem pretty_forecast_lines (fc : dict) (entries : list pyval) (show_n : Z) :
  has_key "error" fc = false ->
  lookup "forecasts" fc = Some (PList entries) ->
  forallb is_dict entries = true ->
  entries <> [] ->
  0 < show_n ->
  pretty_forecast fc show_n =
    Returned (String.concat newline
                (map rendered_line (firstn (Z.to_nat show_n) entries))).
Proof.
  intros Herr Hlook Hall Hne Hpos.
  rewrite (pretty_forecast_records fc entries show_n Herr); [| | exact Hall].
  - rewrite slice_to_nonneg by lia.
    destruct entries as [| e es]; [congruence |].
    destruct (Z.to_nat show_n) as [| n] eqn:Hn; [lia |].
    reflexivity.
  - unfold dict_get. rewrite Hlook. reflexivity.
Qed.
End PresenterFacts.

Lemma pretty_forecast_placeholder_witness :
  pretty_forecast one_entry_forecast 0 = Returned "No forecast data.".
Proof.
  apply (pretty_forecast_placeholder one_entry_forecast one_entry 0);
    reflexivity.
Defined.

Lemma pretty_forecast_lines_witness :
  pretty_forecast one_entry_forecast 5 =
    Returned "2024-01-01 00:00:00: 5°C, clear sky".
Proof.
  apply (pretty_forecast_lines one_entry_forecast one_entry 5);
    [reflexivity | reflexivity | reflexivity | discriminate | lia].
Defined.

(** C5 as the specification words it fails on the code: the line the
    presenter writes carries "°C", not "°", and with nothing to show the
    text is the placeholder, not the empty join. *)
Lemma pretty_forecast_differs_from_spec_text :
  pretty_forecast one_entry_forecast 5
    <> Returned (spec_forecast_text one_entry 5)
  /\ pretty_forecast one_entry_forecast 0
    <> Returned (spec_forecast_text one_entry 0).
Proof.
  split; vm_compute; discriminate.
Qed.

(* ================================================================== *)
(** ** The fetchers *)
(* ================================================================== *)

Lemma is_2xx_not_failure (r : response) :
  is_2xx r = true -> is_request_failure (Responded r) = false.
Proof.
  unfold is_2xx, is_request_failure. intros H.
  apply andb_true_iff in H as [_ H]. apply Z.ltb_lt in H.
  apply andb_false_iff. left. apply Z.leb_gt. lia.
Qed.

Lemma answer_failure (read : pyval -> result dict) (o : http_outcome) :
  is_request_failure o = true ->
  answer read o = Returned (error_result ("Request failed: " ++ describe_failure o)).
Proof.
  intros H. unfold answer. rewrite H. reflexivity.
Qed.

Lemma answer_body (read : pyval -> result dict) (r : response) (data : pyval) :
  is_request_failure (Responded r) = false ->
  resp_body r = JsonBody data ->
  answer read (Responded r) = read data.
Proof.
  intros Hok Hbody. unfold answer, resp_json. rewrite Hok, Hbody. reflexivity.
Qed.

Lemma read_current_shaped (d : dict) :
  current_shaped (PDict d) = true ->
  read_current (PDict d) = Returned (current_record d).
Proof.
  unfold current_shaped, weather_shaped, absent_or, read_current, current_record,
    first_condition, dict_get, opt_field.
  cbn [py_get bind ret Monad_result dict_get].
  unfold dict_get.
  destruct (lookup "main" d) as [[| | | | | |] |];
    destruct (lookup "weather" d) as [[| | | | | [| [| | | | | |] ?] |] |];
    destruct (lookup "wind" d) as [[| | | | | |] |];
    destruct (lookup "sys" d) as [[| | | | | |] |];
    cbn; try discriminate; intros _;
    destruct (lookup "name" d); reflexivity.
Qed.

Lemma forecast_entry_shaped (entry : pyval) :
  weather_shaped entry = true ->
  forecast_entry entry = Returned (entry_record entry).
Proof.
  destruct entry as [| | | | | | d]; try discriminate.
  unfold weather_shaped, absent_or, forecast_entry, entry_record,
    first_condition, opt_field.
  cbn [py_get bind ret Monad_result dict_get].
  unfold dict_get.
  destruct (lookup "main" d) as [[| | | | | |] |];
    destruct (lookup "weather" d) as [[| | | | | [| [| | | | | |] ?] |] |];
    destruct (lookup "wind" d) as [[| | | | | |] |];
    cbn; try discriminate; intros _;
    destruct (lookup "dt_txt" d); reflexivity.
Qed.

Section ClientFacts.
Context {rt : PyRuntime}.
Variables (key city units : string) (net : network) (log : list event).

(** C1, amended: when the request times out, fails to connect, or is
    answered with a status from 400 to 599, [fetch_weather_current] and
    [fetch_weather_forecast] each return an error result whose message
    is "Request failed: " followed by the description of the failure,
    and raise nothing. *)
Theorem request_failure_returns_error (cnt : Z) :
  (is_request_failure (net log (weather_request key city units)) = true ->
   fetch_weather_current key city units net log =
     (Returned (error_result
                  ("Request failed: "
                     ++ describe_failure (net log (weather_request key city units)))),
      (log ++ [EGet (weather_request key city units)])%list))
  /\ (is_request_failure (net log (forecast_request key city units)) = true ->
      fetch_weather_forecast key city cnt units net log =
        (Returned (error_result
                     ("Request failed: "
                        ++ describe_failure (net log (forecast_request key city units)))),
         (log ++ [EGet (forecast_request key city units)])%list)).
Proof.
  split; intros Hfail.
  - rewrite fetch_weather_current_run, answer_failure by exact Hfail.
    reflexivity.
  - rewrite fetch_weather_forecast_run, answer_failure by exact Hfail.
    reflexivity.
Qed.

(** C2: when the response is a success whose body is a report in which
    any of the sub-objects and fields may be missing, the fetch of the
    current conditions returns a record (it does not raise), each of
    whose fields is the value found in the body, or null when the field
    or the sub-object holding it is missing; the same holds for the
    record made of each forecast entry. *)
Theorem missing_fields_surface_as_null (r : response) (d : dict) :
  net log (weather_request key city units) = Responded r ->
  is_2xx r = true ->
  resp_body r = JsonBody (PDict d) ->
  current_shaped (PDict d) = true ->
  fetch_weather_current key city units net log =
    (Returned (current_record d),
     (log ++ [EGet (weather_request key city units)])%list)
  /\ (forall entry, weather_shaped entry = true ->
        forecast_entry entry = Returned (entry_record entry))
  /\ (forall k, opt_field None k = PNone)
  /\ (forall sub k, lookup k sub = None -> opt_field (Some (PDict sub)) k = PNone)
  /\ (lookup "weather" d = None -> first_condition d = None).
Proof.
  intros Hnet H2xx Hbody Hshape. repeat split.
  - rewrite fetch_weather_current_run, Hnet.
    rewrite (answer_body read_current r (PDict d)).
    + rewrite read_current_shaped by exact Hshape. reflexivity.
    + apply is_2xx_not_failure. exact H2xx.
    + exact Hbody.
  - apply forecast_entry_shaped.
  - intros sub k Hk. cbn. rewrite Hk. reflexivity.
  - intros Hw. unfold first_condition. rewrite Hw. reflexivity.
Qed.
End ClientFacts.

Lemma read_forecast_shaped (cnt : Z) (d : dict) (raw : list pyval) :
  lookup "list" d = Some (PList raw) ->
  forallb weather_shaped raw = true ->
  absent_or is_dict d "city" = true ->
  read_forecast cnt (PDict d) =
    Returned [("city", opt_field (lookup "city" d) "name");
              ("country", opt_field (lookup "city" d) "country");
              ("forecasts", PList (map entry_record (slice_to cnt raw)))].
Proof.
  intros Hlist Hall Hcity. unfold read_forecast.
  cbn [py_get bind ret Monad_result]. unfold dict_get at 1. rewrite Hlist.
  cbn [py_slice_items bind ret Monad_result].
  rewrite (for_each_map forecast_entry entry_record).
  - cbn [bind ret Monad_result]. unfold absent_or in Hcity. unfold dict_get, opt_field.
    destruct (lookup "city" d) as [[| | | | | | c] |]; try discriminate; cbn;
      unfold dict_get; reflexivity.
  - intros e He. apply forecast_entry_shaped.
    pose proof (forallb_slice_to weather_shaped cnt raw Hall) as Hcut.
    rewrite forallb_forall in Hcut. apply Hcut. exact He.
Qed.

Lemma read_current_keys (data : pyval) (d : dict) :
  read_current data = Returned d -> keys d = current_keys.
Proof.
  unfold read_current. cbn [bind ret Monad_result].
  split_results; intros H; inversion H; reflexivity.
Qed.

Lemma read_forecast_keys (cnt : Z) (data : pyval) (d : dict) :
  read_forecast cnt data = Returned d -> keys d = forecast_keys.
Proof.
  unfold read_forecast. cbn [bind ret Monad_result].
  split_results; intros H; inversion H; reflexivity.
Qed.

Lemma answer_keys (read : pyval -> result dict) (ks : list string)
    (o : http_outcome) (d : dict) :
  (forall data d', read data = Returned d' -> keys d' = ks) ->
  answer read o = Returned d ->
  keys d = if is_request_failure o then ["error"] else ks.
Proof.
  intros Hread. unfold answer.
  destruct (is_request_failure o) eqn:Hfail.
  - intros H. inversion H. reflexivity.
  - destruct o as [k msg | r]; [discriminate |].
    cbn [bind ret Monad_result].
    destruct (resp_json r) as [data | e]; [| discriminate].
    apply Hread.
Qed.

Lemma forecast_entry_is_dict (entry out : pyval) :
  forecast_entry entry = Returned out -> is_dict out = true.
Proof.
  unfold forecast_entry. cbn [bind ret Monad_result].
  split_results; intros H; inversion H; reflexivity.
Qed.

Lemma for_each_forall {A B : Type} (body : A -> result B) (p : B -> bool)
    (l : list A) (out : list B) :
  (forall x y, body x = Returned y -> p y = true) ->
  for_each body l = Returned out -> forallb p out = true.
Proof.
  intros Hbody. revert out. induction l as [| x l IH]; intros out H.
  - inversion H. reflexivity.
  - cbn in H. destruct (body x) as [y | e] eqn:Hx; [| discriminate].
    destruct (for_each body l) as [ys | e]; [| discriminate].
    inversion H; subst. cbn. rewrite (Hbody x y Hx). apply IH. reflexivity.
Qed.

Lemma read_forecast_records (cnt : Z) (data : pyval) (d : dict) :
  read_forecast cnt data = Returned d ->
  exists name country forecasts,
    d = [("city", name); ("country", country); ("forecasts", PList forecasts)]
    /\ forallb is_dict forecasts = true.
Proof.
  unfold read_forecast. cbn [bind ret Monad_result].
  destruct (py_get data "list" (PList [])) as [raw_list |]; [| discriminate].
  destruct (py_slice_items raw_list cnt) as [items |]; [| discriminate].
  destruct (for_each forecast_entry items) as [forecasts |] eqn:Hloop;
    [| discriminate].
  cbn [bind ret Monad_result].
  split_results; intros H; inversion H.
  eexists _, _, forecasts. split; [reflexivity |].
  eapply for_each_forall; [| exact Hloop].
  intros x y. apply forecast_entry_is_dict.
Qed.

Section ForecastFacts.
Context {rt : PyRuntime}.
Variables (key city units : string) (net : network) (log : list event).

(** What [fetch_weather_forecast] returns on a well-shaped response,
    for any count. *)
Lemma fetch_weather_forecast_shaped (cnt : Z) (r : response) (d : dict)
    (raw : list pyval) :
  net log (forecast_request key city units) = Responded r ->
  is_2xx r = true ->
  resp_body r = JsonBody (PDict d) ->
  lookup "list" d = Some (PList raw) ->
  forallb weather_shaped raw = true ->
  absent_or is_dict d "city" = true ->
  fetch_weather_forecast key city cnt units net log =
    (Returned [("city", opt_field (lookup "city" d) "name");
               ("country", opt_field (lookup "city" d) "country");
               ("forecasts", PList (map entry_record (slice_to cnt raw)))],
     (log ++ [EGet (forecast_request key city units)])%list).
Proof.
  intros Hnet H2xx Hbody Hlist Hall Hcity.
  rewrite fetch_weather_forecast_run, Hnet.
  rewrite (answer_body (read_forecast cnt) r (PDict d));
    [| apply is_2xx_not_failure; exact H2xx | exact Hbody].
  rewrite (read_forecast_shaped cnt d raw) by assumption.
  reflexivity.
Qed.

(** C3: for every upstream list of forecast entries and every positive
    count, [fetch_weather_forecast] returns the records of exactly the
    first [cnt] entries, in their order; when [cnt] is at least the
    number of entries, these are the records of all of them. *)
Theorem forecast_returns_first_entries (cnt : Z) (r : response) (d : dict)
    (raw : list pyval) :
  net log (forecast_request key city units) = Responded r ->
  is_2xx r = true ->
  resp_body r = JsonBody (PDict d) ->
  lookup "list" d = Some (PList raw) ->
  forallb weather_shaped raw = true ->
  absent_or is_dict d "city" = true ->
  0 < cnt ->
  fetch_weather_forecast key city cnt units net log =
    (Returned [("city", opt_field (lookup "city" d) "name");
               ("country", opt_field (lookup "city" d) "country");
               ("forecasts",
                PList (map entry_record (firstn (Z.to_nat cnt) raw)))],
     (log ++ [EGet (forecast_request key city units)])%list)
  /\ (Z.of_nat (List.length raw) <= cnt -> firstn (Z.to_nat cnt) raw = raw).
Proof.
  intros Hnet H2xx Hbody Hlist Hall Hcity Hpos. split.
  - rewrite (fetch_weather_forecast_shaped cnt r d raw) by assumption.
    rewrite slice_to_nonneg by lia. reflexivity.
  - intros Hlen. apply firstn_all2. lia.
Qed.

(** With a count of zero no entry is returned. *)
Lemma forecast_zero_count (r : response) (d : dict) (raw : list pyval) :
  net log (forecast_request key city units) = Responded r ->
  is_2xx r = true ->
  resp_body r = JsonBody (PDict d) ->
  lookup "list" d = Some (PList raw) ->
  forallb weather_shaped raw = true ->
  absent_or is_dict d "city" = true ->
  fetch_weather_forecast key city 0 units net log =
    (Returned [("city", opt_field (lookup "city" d) "name");
               ("country", opt_field (lookup "city" d) "country");
               ("forecasts", PList [])],
     (log ++ [EGet (forecast_request key city units)])%list).
Proof.
  intros. rewrite (fetch_weather_forecast_shaped 0 r d raw) by assumption.
  reflexivity.
Qed.

(** With a negative count the entries returned are all but the last
    [- cnt]. *)
Lemma forecast_negative_count (cnt : Z) (r : response) (d : dict)
    (raw : list pyval) :
  net log (forecast_request key city units) = Responded r ->
  is_2xx r = true ->
  resp_body r = JsonBody (PDict d) ->
  lookup "list" d = Some (PList raw) ->
  forallb weather_shaped raw = true ->
  absent_or is_dict d "city" = true ->
  cnt < 0 ->
  fetch_weather_forecast key city cnt units net log =
    (Returned [("city", opt_field (lookup "city" d) "name");
               ("country", opt_field (lookup "city" d) "country");
               ("forecasts",
                PList (map entry_record
                         (firstn (List.length raw - Z.to_nat (- cnt)) raw)))],
     (log ++ [EGet (forecast_request key city units)])%list).
Proof.
  intros Hnet H2xx Hbody Hlist Hall Hcity Hneg.
  rewrite (fetch_weather_forecast_shaped cnt r d raw) by assumption.
  rewrite slice_to_negative by exact Hneg. reflexivity.
Qed.

(** C9: a dictionary returned by a fetcher has the error key exactly
    when the request failed; it then has no other key, and otherwise
    it has the fixed keys of its kind of record, none of which is the
    error key. *)
Theorem error_key_marks_failure (cnt : Z) :
  (forall d log',
      fetch_weather_current key city units net log = (Returned d, log') ->
      has_key "error" d
        = is_request_failure (net log (weather_request key city units))
      /\ keys d = (if is_request_failure (net log (weather_request key city units))
                   then ["error"] else current_keys))
  /\ (forall d log',
        fetch_weather_forecast key city cnt units net log = (Returned d, log') ->
        has_key "error" d
          = is_request_failure (net log (forecast_request key city units))
        /\ keys d = (if is_request_failure (net log (forecast_request key city units))
                     then ["error"] else forecast_keys))
  /\ ~ In "error" current_keys
  /\ ~ In "error" forecast_keys.
Proof.
  assert (Hkeys : forall (d : dict) (b : bool) (ks : list string),
             ~ In "error" ks ->
             keys d = (if b then ["error"] else ks) ->
             has_key "error" d = b).
  { intros d b ks Hks Hd. destruct b.
    - apply lookup_has_key. rewrite Hd. left. reflexivity.
    - destruct (has_key "error" d) eqn:Hk; [| reflexivity].
      apply lookup_has_key in Hk. rewrite Hd in Hk. contradiction. }
  assert (Hc : ~ In "error" current_keys).
  { cbn. intuition discriminate. }
  assert (Hf : ~ In "error" forecast_keys).
  { cbn. intuition discriminate. }
  repeat split; try assumption.
  - rewrite fetch_weather_current_run in H. inversion H as [[Ha Hl]].
    apply (Hkeys d _ current_keys Hc).
    apply (answer_keys read_current); [apply read_current_keys | exact Ha].
  - rewrite fetch_weather_current_run in H. inversion H as [[Ha Hl]].
    apply (answer_keys read_current); [apply read_current_keys | exact Ha].
  - rewrite fetch_weather_forecast_run in H. inversion H as [[Ha Hl]].
    apply (Hkeys d _ forecast_keys Hf).
    apply (answer_keys (read_forecast cnt));
      [apply read_forecast_keys | exact Ha].
  - rewrite fetch_weather_forecast_run in H. inversion H as [[Ha Hl]].
    apply (answer_keys (read_forecast cnt));
      [apply read_forecast_keys | exact Ha].
Qed.
End ForecastFacts.

Lemma read_current_fields (data : pyval) (d : dict) :
  read_current data = Returned d ->
  exists name country temp feels_like humidity pressure weather_main
         weather_desc wind_speed,
    d = [("city", name); ("country", country); ("temp", temp);
         ("feels_like", feels_like); ("humidity", humidity);
         ("pressure", pressure); ("weather_main", weather_main);
         ("weather_desc", weather_desc); ("wind_speed", wind_speed)].
Proof.
  unfold read_current. cbn [bind ret Monad_result].
  split_results; intros H; inversion H.
  do 9 eexists. reflexivity.
Qed.

Lemma answer_success (read : pyval -> result dict) (o : http_outcome) (d : dict) :
  answer read o = Returned d ->
  has_key "error" d = false ->
  exists data, read data = Returned d.
Proof.
  unfold answer. destruct o as [k msg | r].
  - cbn [is_request_failure]. intros H. inversion H. discriminate.
  - destruct (is_request_failure (Responded r)).
    + intros H. inversion H. discriminate.
    + cbn [bind ret Monad_result].
      destruct (resp_json r) as [data |]; [| discriminate].
      intros H _. exists data. exact H.
Qed.

Section LabelFacts.
Context {rt : PyRuntime}.
Variables (key city units : string) (net : network) (log : list event).

(** C10: whatever unit system the fetch was made with, the text of a
    successful record of current conditions labels the temperature and
    the felt temperature with "°C" and the wind speed with "m/s", and
    each line of the text of a successful forecast labels the
    temperature with "°C"; the unit system appears nowhere in what the
    presenters compute. *)
Theorem unit_labels_are_constants (cnt show_n : Z) :
  (forall d log',
      fetch_weather_current key city units net log = (Returned d, log') ->
      has_key "error" d = false ->
      pretty_current d =
        Returned
          ("📍 " ++ py_str (dict_get d "city" PNone) ++ ", "
             ++ py_str (dict_get d "country" PNone) ++ newline
             ++ "🌤️  " ++ py_str (dict_get d "weather_main" PNone) ++ " - "
             ++ py_str (dict_get d "weather_desc" PNone) ++ newline
             ++ "🌡️  Temp: " ++ py_str (dict_get d "temp" PNone)
             ++ "°C (feels like " ++ py_str (dict_get d "feels_like" PNone)
             ++ "°C)" ++ newline
             ++ "💧 Humidity: " ++ py_str (dict_get d "humidity" PNone)
             ++ "% | Pressure: " ++ py_str (dict_get d "pressure" PNone)
             ++ " hPa" ++ newline
             ++ "💨 Wind speed: " ++ py_str (dict_get d "wind_speed" PNone)
             ++ " m/s" ++ newline))
  /\ (forall fc log',
        fetch_weather_forecast key city cnt units net log = (Returned fc, log') ->
        has_key "error" fc = false ->
        exists entries,
          dict_get fc "forecasts" (PList []) = PList entries
          /\ pretty_forecast fc show_n =
               Returned
                 (match slice_to show_n entries with
                  | [] => "No forecast data."
                  | _ :: _ =>
                      String.concat newline
                        (map (fun entry =>
                                py_str (opt_field (Some entry) "datetime") ++ ": "
                                  ++ py_str (opt_field (Some entry) "temp")
                                  ++ "°C, "
                                  ++ py_str (opt_field (Some entry) "weather_desc"))
                             (slice_to show_n entries))
                  end)).
Proof.
  split.
  - intros d log' Hfetch Herr.
    rewrite fetch_weather_current_run in Hfetch. inversion Hfetch as [[Ha Hl]].
    destruct (answer_success _ _ _ Ha Herr) as [data Hread].
    destruct (read_current_fields data d Hread)
      as (name & country & temp & feels & hum & pres & wm & wd & ws & ->).
    reflexivity.
  - intros fc log' Hfetch Herr.
    rewrite fetch_weather_forecast_run in Hfetch. inversion Hfetch as [[Ha Hl]].
    destruct (answer_success _ _ _ Ha Herr) as [data Hread].
    destruct (read_forecast_records cnt data fc Hread)
      as (name & country & forecasts & -> & Hall).
    exists forecasts. split; [reflexivity |].
    apply (pretty_forecast_records _ forecasts show_n);
      [reflexivity | reflexivity | exact Hall].
Qed.
End LabelFacts.

(* ================================================================== *)
(** ** The process *)
(* ================================================================== *)

Section ProcessFacts.
Context {rt : PyRuntime}.
Variables (net : network) (env dotenv : environ) (a : args).

(** C8: when the credential variable is absent or empty once the
    environment is loaded, the run ends at once with a [RuntimeError]
    whose message names the variable, and its event log is empty: no
    request was issued (and nothing printed). *)
Theorem missing_credential_aborts_before_network :
  os_getenv (load_dotenv dotenv env) "OPENWEATHER_API_KEY" = None
  \/ os_getenv (load_dotenv dotenv env) "OPENWEATHER_API_KEY" = Some "" ->
  run net env dotenv a = (Raised (RuntimeError missing_key_message), [])
  /\ contains "OPENWEATHER_API_KEY" missing_key_message = true
  /\ existsb is_get (snd (run net env dotenv a)) = false.
Proof.
  intros Hkey.
  assert (Hrun : run net env dotenv a
                 = (Raised (RuntimeError missing_key_message), [])).
  { unfold run, script. destruct Hkey as [-> | ->]; reflexivity. }
  rewrite Hrun. repeat split; reflexivity.
Qed.

(** With a credential, the run does reach the network: its first event
    is the request for the current conditions, made with that
    credential. *)
Lemma credential_present_requests (key : string) :
  os_getenv (load_dotenv dotenv env) "OPENWEATHER_API_KEY" = Some key ->
  key <> "" ->
  exists rest,
    snd (run net env dotenv a)
    = EGet (weather_request key (arg_city a) "metric") :: rest.
Proof.
  intros Hkey Hne. unfold run, script. rewrite Hkey.
  cbn [falsy]. destruct (String.eqb_spec key "") as [-> | _]; [congruence |].
  unfold main. cbn [bind ret catch Monad_IO Exc_IO lift print].
  rewrite fetch_weather_current_run. cbn [app].
  destruct (answer read_current _) as [d | e]; [| eexists; reflexivity].
  destruct (pretty_current d) as [text | e]; [| eexists; reflexivity].
  destruct (arg_forecast a); [| eexists; reflexivity].
  rewrite fetch_weather_forecast_run.
  destruct (answer (read_forecast _) _) as [fc | e]; [| eexists; reflexivity].
  destruct (pretty_forecast fc _) as [text' | e]; eexists; reflexivity.
Qed.
End ProcessFacts.

(* ================================================================== *)
(** ** The claims on concrete inputs *)
(* ================================================================== *)

(** C1 as the specification words it fails on the code: a response with
    status 304 is not a 2xx response, yet neither fetcher returns an
    error result for it; with a body that is not JSON both raise. *)
Lemma non_2xx_status_not_reported :
  is_2xx not_modified = false
  /\ fetch_weather_current "k" "Lahore" "metric" (always (Responded not_modified)) []
     = (Raised (JSONDecodeError "Expecting value: line 1 column 1 (char 0)"),
        [EGet (weather_request "k" "Lahore" "metric")])
  /\ fetch_weather_forecast "k" "Lahore" 5 "metric" (always (Responded not_modified)) []
     = (Raised (JSONDecodeError "Expecting value: line 1 column 1 (char 0)"),
        [EGet (forecast_request "k" "Lahore" "metric")]).
Proof.
  repeat split; reflexivity.
Qed.

Lemma request_failure_returns_error_witness :
  fetch_weather_current "k" "Nowhere" "metric" (always (Responded not_found)) []
  = (Returned
       (error_result
          "Request failed: 404 Client Error: Not Found for url: https://api.openweathermap.org/data/2.5/weather?q=Nowhere"),
     [EGet (weather_request "k" "Nowhere" "metric")])
  /\ fetch_weather_forecast "k" "Lahore" 5 "metric"
       (always (TransportFault Timeout "Read timed out. (read timeout=10)")) []
     = (Returned (error_result "Request failed: Read timed out. (read timeout=10)"),
        [EGet (forecast_request "k" "Lahore" "metric")]).
Proof.
  split.
  - apply (proj1 (request_failure_returns_error
                    "k" "Nowhere" "metric" (always (Responded not_found)) [] 5)).
    reflexivity.
  - apply (proj2 (request_failure_returns_error
                    "k" "Lahore" "metric"
                    (always (TransportFault Timeout "Read timed out. (read timeout=10)"))
                    [] 5)).
    reflexivity.
Defined.

Lemma missing_fields_surface_as_null_witness :
  fetch_weather_current "k" "Lahore" "metric"
    (always (Responded (ok (PDict lahore_report)))) []
  = (Returned [("city", PStr "Lahore"); ("country", PStr "PK");
               ("temp", PInt 31); ("feels_like", PNone);
               ("humidity", PInt 40); ("pressure", PNone);
               ("weather_main", PNone); ("weather_desc", PNone);
               ("wind_speed", PNone)],
     [EGet (weather_request "k" "Lahore" "metric")]).
Proof.
  apply (proj1 (missing_fields_surface_as_null
                  "k" "Lahore" "metric"
                  (always (Responded (ok (PDict lahore_report)))) []
                  (ok (PDict lahore_report)) lahore_report
                  eq_refl eq_refl eq_refl eq_refl)).
Defined.

Lemma forecast_returns_first_entries_witness :
  fetch_weather_forecast "k" "Lahore" 1 "metric"
    (always (Responded (ok (PDict two_item_forecast)))) []
  = (Returned [("city", PStr "Lahore"); ("country", PStr "PK");
               ("forecasts",
                PList [entry_record (forecast_item "2024-01-01 00:00:00" 5)])],
     [EGet (forecast_request "k" "Lahore" "metric")]).
Proof.
  apply (proj1 (forecast_returns_first_entries
                  "k" "Lahore" "metric"
                  (always (Responded (ok (PDict two_item_forecast)))) []
                  1 (ok (PDict two_item_forecast)) two_item_forecast two_items
                  eq_refl eq_refl eq_refl eq_refl eq_refl eq_refl eq_refl)).
Defined.

(** C4 on the code: with a count of -1 and two upstream entries,
    [fetch_weather_forecast] returns the record of the first entry, not
    an empty sequence. *)
Theorem negative_count_keeps_entries :
  fetch_weather_forecast "k" "Lahore" (-1) "metric"
    (always (Responded (ok (PDict two_item_forecast)))) []
  = (Returned [("city", PStr "Lahore"); ("country", PStr "PK");
               ("forecasts",
                PList [PDict [("datetime", PStr "2024-01-01 00:00:00");
                              ("temp", PInt 5);
                              ("feels_like", PNone);
                              ("humidity", PNone);
                              ("pressure", PNone);
                              ("weather_main", PNone);
                              ("weather_desc", PStr "clear sky");
                              ("wind_speed", PNone)]])],
     [EGet (forecast_request "k" "Lahore" "metric")]).
Proof.
  reflexivity.
Qed.

Lemma missing_credential_aborts_before_network_witness :
  run (always (Responded (ok (PDict lahore_report))))
      [("HOME", "/root"); ("OPENWEATHER_API_KEY", "")]
      [("OPENWEATHER_API_KEY", "0123456789abcdef")]
      {| arg_city := "Lahore"; arg_forecast := true; arg_entries := 5 |}
  = (Raised (RuntimeError "❌ Missing OPENWEATHER_API_KEY in .env file"), []).
Proof.
  apply (proj1 (missing_credential_aborts_before_network
                  (always (Responded (ok (PDict lahore_report))))
                  [("HOME", "/root"); ("OPENWEATHER_API_KEY", "")]
                  [("OPENWEATHER_API_KEY", "0123456789abcdef")]
                  {| arg_city := "Lahore"; arg_forecast := true; arg_entries := 5 |}
                  (or_intror eq_refl))).
Defined.

Lemma error_key_marks_failure_witness :
  has_key "error" (current_record lahore_report) = false
  /\ keys (current_record lahore_report) = current_keys.
Proof.
  apply (proj1 (error_key_marks_failure
                  "k" "Lahore" "metric"
                  (always (Responded (ok (PDict lahore_report)))) [] 5)
           (current_record lahore_report)
           [EGet (weather_request "k" "Lahore" "metric")]).
  reflexivity.
Defined.

Lemma unit_labels_are_constants_witness :
  pretty_current (current_record lahore_report)
  = Returned
      ("📍 Lahore, PK" ++ newline
         ++ "🌤️  None - None" ++ newline
         ++ "🌡️  Temp: 31°C (feels like None°C)" ++ newline
         ++ "💧 Humidity: 40% | Pressure: None hPa" ++ newline
         ++ "💨 Wind speed: None m/s" ++ newline).
Proof.
  apply (proj1 (unit_labels_are_constants
                  "k" "Lahore" "imperial"
                  (always (Responded (ok (PDict lahore_report)))) [] 5 5)
           (current_record lahore_report)
           [EGet (weather_request "k" "Lahore" "imperial")]);
    reflexivity.
Defined.

(* ================================================================== *)
(** ** Runs of the model *)
(* ================================================================== *)

(** A whole run with a credential and [--forecast --entries 1]. *)
Example run_with_forecast :
  run (fun _ req =>
         if String.eqb (req_url req) (req_url (weather_request "" "" ""))
         then Responded (ok (PDict lahore_report))
         else Responded (ok (PDict two_item_forecast)))
      [("OPENWEATHER_API_KEY", "k")] []
      {| arg_city := "Lahore"; arg_forecast := true; arg_entries := 1 |}
  = (Returned tt,
     [EGet (weather_request "k" "Lahore" "metric");
      EPrint ("📍 Lahore, PK" ++ newline
                ++ "🌤️  None - None" ++ newline
                ++ "🌡️  Temp: 31°C (feels like None°C)" ++ newline
                ++ "💧 Humidity: 40% | Pressure: None hPa" ++ newline
                ++ "💨 Wind speed: None m/s" ++ newline ++ newline);
      EPrint (newline ++ "🔮 Forecast:" ++ newline);
      EGet (forecast_request "k" "Lahore" "metric");
      EPrint ("2024-01-01 00:00:00: 5°C, clear sky" ++ newline)]).
Proof. reflexivity. Qed.

(** A body that is not JSON under a passing status is reported by the
    top-level handler of [main], not by the fetcher. *)
Example run_not_json :
  run (always (Responded not_modified)) [("OPENWEATHER_API_KEY", "k")] []
      {| arg_city := "Lahore"; arg_forecast := false; arg_entries := 5 |}
  = (Returned tt,
     [EGet (weather_request "k" "Lahore" "metric");
      EPrint ("Unexpected error: Expecting value: line 1 column 1 (char 0)"
                ++ newline)]).
Proof. reflexivity. Qed.

(** Outside the shape of an upstream report the reading can raise: a
    list of weather conditions that is present and empty has no first
    item. *)
Example empty_conditions_raise :
  fetch_weather_current "k" "Lahore" "metric"
    (always (Responded (ok (PDict [("weather", PList [])])))) []
  = (Raised (IndexError "list index out of range"),
     [EGet (weather_request "k" "Lahore" "metric")]).
Proof. reflexivity. Qed.

(** The variable may come from the .env file alone. *)
Example credential_from_dotenv :
  os_getenv (load_dotenv [("OPENWEATHER_API_KEY", "k")] [("HOME", "/root")])
    "OPENWEATHER_API_KEY" = Some "k".
Proof. reflexivity. Qed.

(* ================================================================== *)
(** ** The entry point *)
(* ================================================================== *)

Section MainFacts.
Context {rt : PyRuntime}.
Variables (key : string) (a : args) (net : network) (log : list event).

Lemma main_run :
  main key a net log = (Returned tt, (log ++ main_trace key a net log)%list).
Proof.
  unfold main, main_trace, forecast_trace, unexpected, forecast_header.
  cbn [bind ret catch Monad_IO Exc_IO lift].
  rewrite fetch_weather_current_run.
  destruct (answer read_current _) as [d | e];
    [| unfold print; rewrite <- ?app_assoc; reflexivity].
  destruct (pretty_current d) as [text | e];
    [| unfold print; rewrite <- ?app_assoc; reflexivity].
  destruct (arg_forecast a);
    [| unfold print; rewrite <- ?app_assoc; reflexivity].
  unfold print at 1 2. rewrite fetch_weather_forecast_run.
  rewrite <- !app_assoc. cbn [app].
  destruct (answer (read_forecast _) _) as [fc | e];
    [| unfold print; rewrite <- ?app_assoc; reflexivity].
  destruct (pretty_forecast fc _) as [text' | e];
    unfold print; rewrite <- ?app_assoc; reflexivity.
Qed.

(** X2: [main] keeps the events that were logged before it, then issues
    the request for the current conditions of the city, in metric units;
    after it comes at most one more request, the forecast request for
    the same city, and none at all without [--forecast]. *)
Theorem main_requests :
  exists evs,
    snd (main key a net log)
    = (log ++ EGet (weather_request key (arg_city a) "metric") :: evs)%list
    /\ (filter is_get evs = []
        \/ filter is_get evs
           = [EGet (forecast_request key (arg_city a) "metric")])
    /\ (arg_forecast a = false -> filter is_get evs = []).
Proof.
  rewrite main_run. unfold main_trace, forecast_trace, unexpected, forecast_header.
  eexists. split; [reflexivity |].
  destruct (answer read_current _) as [d | e]; [| cbn; auto].
  destruct (pretty_current d) as [text | e]; [| cbn; auto].
  destruct (arg_forecast a); [| cbn; auto].
  split; [| discriminate].
  right. cbn [filter is_get].
  destruct (answer (read_forecast _) _) as [fc | e]; [| reflexivity].
  destruct (pretty_forecast fc _); reflexivity.
Qed.

(** X3: when the response to the request for the current conditions
    passes the status check but its body is not JSON, [main] prints
    "Unexpected error: " and the decoder's message, and stops there: no
    forecast is requested, even with [--forecast]. *)
Theorem main_reports_undecodable_body (r : response) (msg : string) :
  net log (weather_request key (arg_city a) "metric") = Responded r ->
  is_request_failure (Responded r) = false ->
  resp_body r = NotJson msg ->
  main key a net log
  = (Returned tt,
     (log ++ [EGet (weather_request key (arg_city a) "metric");
              EPrint ("Unexpected error: " ++ msg ++ newline)])%list).
Proof.
  intros Hnet Hok Hbody. rewrite main_run. unfold main_trace.
  rewrite Hnet. unfold answer, resp_json. rewrite Hok, Hbody.
  reflexivity.
Qed.

(** X4: a failed request for the current conditions does not end the
    run: [main] prints "Error: Request failed: " and the description of
    the failure, and with [--forecast] goes on to print the forecast
    header and to issue the forecast request. *)
Theorem main_forecast_follows_failed_current :
  is_request_failure (net log (weather_request key (arg_city a) "metric")) = true ->
  arg_forecast a = true ->
  exists rest,
    snd (main key a net log)
    = (log ++ [EGet (weather_request key (arg_city a) "metric");
               EPrint ("Error: Request failed: "
                         ++ describe_failure
                              (net log (weather_request key (arg_city a) "metric"))
                         ++ newline);
               EPrint (newline ++ "🔮 Forecast:" ++ newline);
               EGet (forecast_request key (arg_city a) "metric")] ++ rest)%list.
Proof.
  intros Hfail Hflag. rewrite main_run. unfold main_trace, forecast_trace.
  rewrite answer_failure by exact Hfail.
  change (pretty_current (error_result ?m)) with (Returned ("Error: " ++ m)).
  rewrite Hflag. eexists. reflexivity.
Qed.

(** X5: without [--forecast], on a successful response whose body is a
    report, [main] issues the one request and prints the text of the
    record read off the report, and nothing else. *)
Theorem main_prints_current (r : response) (d : dict) :
  net log (weather_request key (arg_city a) "metric") = Responded r ->
  is_2xx r = true ->
  resp_body r = JsonBody (PDict d) ->
  current_shaped (PDict d) = true ->
  arg_forecast a = false ->
  exists text,
    pretty_current (current_record d) = Returned text
    /\ main key a net log
       = (Returned tt,
          (log ++ [EGet (weather_request key (arg_city a) "metric");
                   EPrint (text ++ newline)])%list).
Proof.
  intros Hnet H2xx Hbody Hshape Hflag.
  assert (Htext : exists text, pretty_current (current_record d) = Returned text)
    by (eexists; reflexivity).
  destruct Htext as [text Htext]. exists text. split; [exact Htext |].
  rewrite main_run. unfold main_trace.
  rewrite Hnet, (answer_body read_current r (PDict d));
    [| apply is_2xx_not_failure; exact H2xx | exact Hbody].
  rewrite read_current_shaped by exact Hshape.
  rewrite Htext, Hflag. reflexivity.
Qed.
End MainFacts.

Lemma main_reports_undecodable_body_witness :
  main "k" (lahore_args true 5) (always (Responded not_modified)) []
  = (Returned tt,
     [EGet (weather_request "k" "Lahore" "metric");
      EPrint ("Unexpected error: Expecting value: line 1 column 1 (char 0)"
                ++ newline)]).
Proof.
  apply (main_reports_undecodable_body
           "k" (lahore_args true 5) (always (Responded not_modified)) []
           not_modified "Expecting value: line 1 column 1 (char 0)"
           eq_refl eq_refl eq_refl).
Defined.

Lemma main_forecast_follows_failed_current_witness :
  exists rest,
    snd (main "k" (lahore_args true 5) (always (Responded not_found)) [])
    = ([EGet (weather_request "k" "Lahore" "metric");
        EPrint ("Error: Request failed: "
                  ++ describe_failure (Responded not_found) ++ newline);
        EPrint (newline ++ "🔮 Forecast:" ++ newline);
        EGet (forecast_request "k" "Lahore" "metric")] ++ rest)%list.
Proof.
  apply (main_forecast_follows_failed_current
           "k" (lahore_args true 5) (always (Responded not_found)) []
           eq_refl eq_refl).
Defined.

Lemma main_prints_current_witness :
  exists text,
    pretty_current (current_record lahore_report) = Returned text
    /\ main "k" (lahore_args false 5)
         (always (Responded (ok (PDict lahore_report)))) []
       = (Returned tt,
          [EGet (weather_request "k" "Lahore" "metric");
           EPrint (text ++ newline)]).
Proof.
  apply (main_prints_current
           "k" (lahore_args false 5)
           (always (Responded (ok (PDict lahore_report)))) []
           (ok (PDict lahore_report)) lahore_report
           eq_refl eq_refl eq_refl eq_refl eq_refl).
Defined.

(* ================================================================== *)
(** ** More on the fetchers *)
(* ================================================================== *)

Lemma for_each_raises {A B : Type} (body : A -> result B) (l : list A) (x : A) :
  In x l ->
  (exists e, body x = Raised e) ->
  exists e, for_each body l = Raised e.
Proof.
  intros Hin [e He]. induction l as [| y l IH]; [contradiction |].
  cbn [for_each bind ret Monad_result].
  destruct (body y) as [b | e'] eqn:Hy; [| eexists; reflexivity].
  destruct Hin as [-> | Hin]; [congruence |].
  destruct (IH Hin) as [e'' ->]. eexists. reflexivity.
Qed.

Lemma forecast_entry_non_object (x : pyval) :
  is_dict x = false ->
  forecast_entry x
  = Raised (AttributeError ("'" ++ type_name x ++ "' object has no attribute 'get'")).
Proof.
  destruct x; try discriminate; reflexivity.
Qed.

Lemma non_objects_in (entries : list pyval) :
  non_objects entries <> [] ->
  exists x, In x entries /\ is_dict x = false.
Proof.
  unfold non_objects. intros Hne.
  destruct (filter (fun e => negb (is_dict e)) entries) as [| x rest] eqn:Hf;
    [congruence |].
  assert (Hx : In x (filter (fun e => negb (is_dict e)) entries))
    by (rewrite Hf; left; reflexivity).
  apply filter_In in Hx as [Hin Hx]. exists x. split; [exact Hin |].
  apply negb_true_iff. exact Hx.
Qed.

Lemma slice_to_length_le {A : Type} (n : Z) (l : list A) :
  0 <= n -> Z.of_nat (List.length (slice_to n l)) <= n.
Proof.
  intros Hn. rewrite slice_to_nonneg by exact Hn.
  pose proof (firstn_le_length (Z.to_nat n) l).
  rewrite length_firstn. lia.
Qed.

Lemma slice_to_map {A B : Type} (f : A -> B) (n : Z) (l : list A) :
  slice_to n (map f l) = map f (slice_to n l).
Proof.
  unfold slice_to. rewrite length_map.
  destruct (0 <=? n); apply firstn_map.
Qed.

Lemma slice_to_twice {A : Type} (n m : Z) (l : list A) :
  0 <= n -> 0 <= m ->
  slice_to m (slice_to n l) = firstn (Z.to_nat (Z.min n m)) l.
Proof.
  intros Hn Hm. rewrite !slice_to_nonneg by lia.
  rewrite firstn_firstn. f_equal. lia.
Qed.

Section MoreFetcherFacts.
Context {rt : PyRuntime}.
Variables (key city units : string) (net : network) (log : list event).

(** X6: whatever the outcome, each fetcher issues exactly one request:
    a GET of the weather (or forecast) endpoint under the base URL, with
    the parameters q, appid and units and a timeout of 10; there is no
    second attempt. *)
Theorem fetchers_issue_one_request (cnt : Z) :
  snd (fetch_weather_current key city units net log)
  = (log ++ [EGet {| req_url := "https://api.openweathermap.org/data/2.5/weather";
                     req_params := [("q", city); ("appid", key); ("units", units)];
                     req_timeout := 10 |}])%list
  /\ snd (fetch_weather_forecast key city cnt units net log)
     = (log ++ [EGet {| req_url := "https://api.openweathermap.org/data/2.5/forecast";
                        req_params := [("q", city); ("appid", key); ("units", units)];
                        req_timeout := 10 |}])%list.
Proof.
  rewrite fetch_weather_current_run, fetch_weather_forecast_run.
  split; reflexivity.
Qed.

(** X7: [fetch_weather_forecast] reads only the entries it keeps: when
    the entries within the count have the shape of a report, the records
    of these entries are returned, whatever comes after them in the
    upstream list. *)
Theorem forecast_reads_only_kept_entries (cnt : Z) (r : response) (d : dict)
    (raw : list pyval) :
  net log (forecast_request key city units) = Responded r ->
  is_2xx r = true ->
  resp_body r = JsonBody (PDict d) ->
  lookup "list" d = Some (PList raw) ->
  forallb weather_shaped (slice_to cnt raw) = true ->
  absent_or is_dict d "city" = true ->
  fetch_weather_forecast key city cnt units net log =
    (Returned [("city", opt_field (lookup "city" d) "name");
               ("country", opt_field (lookup "city" d) "country");
               ("forecasts", PList (map entry_record (slice_to cnt raw)))],
     (log ++ [EGet (forecast_request key city units)])%list).
Proof.
  intros Hnet H2xx Hbody Hlist Hall Hcity.
  rewrite fetch_weather_forecast_run, Hnet.
  rewrite (answer_body (read_forecast cnt) r (PDict d));
    [| apply is_2xx_not_failure; exact H2xx | exact Hbody].
  unfold read_forecast.
  cbn [py_get bind ret Monad_result]. unfold dict_get at 1. rewrite Hlist.
  cbn [py_slice_items bind ret Monad_result].
  rewrite (for_each_map forecast_entry entry_record).
  - cbn [bind ret Monad_result]. unfold absent_or in Hcity. unfold dict_get, opt_field.
    destruct (lookup "city" d) as [[| | | | | | c] |]; try discriminate; cbn;
      unfold dict_get; reflexivity.
  - intros e He. apply forecast_entry_shaped.
    rewrite forallb_forall in Hall. apply Hall. exact He.
Qed.

(** X8: no partial forecast is returned: when one of the entries within
    the count is not an object, [fetch_weather_forecast] raises, after
    its one request, instead of returning the entries that could be
    read. *)
Theorem forecast_bad_entry_raises (cnt : Z) (r : response) (d : dict)
    (raw : list pyval) :
  net log (forecast_request key city units) = Responded r ->
  is_request_failure (Responded r) = false ->
  resp_body r = JsonBody (PDict d) ->
  lookup "list" d = Some (PList raw) ->
  non_objects (slice_to cnt raw) <> [] ->
  exists e,
    fetch_weather_forecast key city cnt units net log
    = (Raised e, (log ++ [EGet (forecast_request key city units)])%list).
Proof.
  intros Hnet Hok Hbody Hlist Hbad.
  rewrite fetch_weather_forecast_run, Hnet.
  rewrite (answer_body (read_forecast cnt) r (PDict d) Hok Hbody).
  unfold read_forecast.
  cbn [py_get bind ret Monad_result]. unfold dict_get at 1. rewrite Hlist.
  cbn [py_slice_items bind ret Monad_result].
  destruct (non_objects_in _ Hbad) as (x & Hin & Hx).
  destruct (for_each_raises forecast_entry (slice_to cnt raw) x Hin) as [e ->].
  - eexists. apply forecast_entry_non_object. exact Hx.
  - exists e. reflexivity.
Qed.

(** X9: a successful forecast never holds more entries than were asked
    for: whenever [fetch_weather_forecast], called with a count that is
    not negative, returns a dictionary without the error key, its
    forecasts are a list of at most [cnt] records. *)
Theorem forecast_at_most_count (cnt : Z) (fc : dict) (log' : list event) :
  0 <= cnt ->
  fetch_weather_forecast key city cnt units net log = (Returned fc, log') ->
  has_key "error" fc = false ->
  exists forecasts,
    lookup "forecasts" fc = Some (PList forecasts)
    /\ Z.of_nat (List.length forecasts) <= cnt.
Proof.
  intros Hcnt Hfetch Herr.
  rewrite fetch_weather_forecast_run in Hfetch. inversion Hfetch as [[Ha Hl]].
  destruct (answer_success _ _ _ Ha Herr) as [data Hread].
  revert Hread. unfold read_forecast. cbn [bind ret Monad_result].
  destruct (py_get data "list" (PList [])) as [raw_list |]; [| discriminate].
  destruct (py_slice_items raw_list cnt) as [items |] eqn:Hitems; [| discriminate].
  destruct (for_each forecast_entry items) as [forecasts |] eqn:Hloop;
    [| discriminate].
  cbn [bind ret Monad_result].
  split_results; intros H; inversion H.
  exists forecasts. split; [reflexivity |].
  rewrite (for_each_length _ _ _ Hloop).
  destruct raw_list; try discriminate; cbn in Hitems; inversion Hitems.
  - rewrite length_map. apply slice_to_length_le. exact Hcnt.
  - apply slice_to_length_le. exact Hcnt.
Qed.

(** X10: [fetch_weather_current] reads the name, the country of "sys",
    "main", "wind" and the first weather condition, and nothing else:
    two successful responses whose bodies agree on these give the same
    result, whatever other keys and further conditions they hold. *)
Theorem current_reads_only_its_keys (net' : network) (r r' : response)
    (d d' : dict) :
  net log (weather_request key city units) = Responded r ->
  net' log (weather_request key city units) = Responded r' ->
  is_2xx r = true ->
  is_2xx r' = true ->
  resp_body r = JsonBody (PDict d) ->
  resp_body r' = JsonBody (PDict d') ->
  (forall k, In k ["name"; "sys"; "main"; "wind"] -> lookup k d = lookup k d') ->
  (lookup "weather" d = lookup "weather" d'
   \/ exists c rest rest',
       lookup "weather" d = Some (PList (c :: rest))
       /\ lookup "weather" d' = Some (PList (c :: rest'))) ->
  fetch_weather_current key city units net log
  = fetch_weather_current key city units net' log.
Proof.
  intros Hnet Hnet' H2xx H2xx' Hbody Hbody' Hkeys Hweather.
  rewrite !fetch_weather_current_run, Hnet, Hnet'.
  rewrite (answer_body read_current r (PDict d));
    [| apply is_2xx_not_failure; exact H2xx | exact Hbody].
  rewrite (answer_body read_current r' (PDict d'));
    [| apply is_2xx_not_failure; exact H2xx' | exact Hbody'].
  f_equal. unfold read_current.
  cbn [py_get bind ret Monad_result]. unfold dict_get.
  rewrite (Hkeys "name"), (Hkeys "sys"), (Hkeys "main"), (Hkeys "wind")
    by (cbn; tauto).
  destruct Hweather as [-> | (c & rest & rest' & -> & ->)]; reflexivity.
Qed.
End MoreFetcherFacts.

(* ================================================================== *)
(** ** More on the presenters *)
(* ================================================================== *)

Section MorePresenterFacts.
Context {rt : PyRuntime}.

Lemma for_each_forecast_line_cases (items : list pyval) :
  for_each forecast_line items
  = match non_objects items with
    | [] => Returned (map rendered_line items)
    | x :: _ =>
        Raised (AttributeError
                  ("'" ++ type_name x ++ "' object has no attribute 'get'"))
    end.
Proof.
  unfold non_objects. induction items as [| e items IH]; [reflexivity |].
  cbn [for_each filter map bind ret Monad_result].
  destruct e; cbn [is_dict negb]; try reflexivity.
  rewrite forecast_line_of_dict by reflexivity.
  rewrite IH.
  destruct (filter (fun e => negb (is_dict e)) items); reflexivity.
Qed.

(** X11: [pretty_current] subscripts the nine keys of a record: on a
    dictionary without the error key it returns a text when all nine are
    there, and otherwise raises [KeyError] for the first one missing, in
    the order city, country, weather_main, weather_desc, temp,
    feels_like, humidity, pressure, wind_speed of its template. *)
Theorem pretty_current_needs_every_key (d : dict) :
  has_key "error" d = false ->
  match filter (fun k => negb (has_key k d))
          ["city"; "country"; "weather_main"; "weather_desc"; "temp";
           "feels_like"; "humidity"; "pressure"; "wind_speed"] with
  | [] => exists text, pretty_current d = Returned text
  | k :: _ => pretty_current d = Raised (KeyError (PStr k))
  end.
Proof.
  intros Herr. unfold pretty_current. rewrite Herr.
  cbn [filter]. unfold has_key, dict_item.
  repeat match goal with
         | |- context [lookup ?k d] =>
             destruct (lookup k d); cbn [negb bind ret Monad_result];
             try reflexivity
         end.
  eexists. reflexivity.
Qed.

(** X12: [pretty_forecast] reads its entries with [get]: on a result
    without the error key whose forecasts are a list, it returns a text
    when every entry it shows is an object, whatever keys the entry has,
    and otherwise raises [AttributeError] for the first entry shown that
    is not an object. *)
Theorem pretty_forecast_needs_objects (fc : dict) (entries : list pyval)
    (show_n : Z) :
  has_key "error" fc = false ->
  dict_get fc "forecasts" (PList []) = PList entries ->
  match non_objects (slice_to show_n entries) with
  | [] => exists text, pretty_forecast fc show_n = Returned text
  | x :: _ =>
      pretty_forecast fc show_n
      = Raised (AttributeError
                  ("'" ++ type_name x ++ "' object has no attribute 'get'"))
  end.
Proof.
  intros Herr Hget. unfold pretty_forecast. rewrite Herr, Hget.
  cbn [py_slice_items bind ret Monad_result].
  rewrite for_each_forecast_line_cases.
  destruct (non_objects (slice_to show_n entries)); [| reflexivity].
  eexists. reflexivity.
Qed.

Lemma entry_record_is_dict (entries : list pyval) :
  forallb weather_shaped entries = true ->
  forallb is_dict (map entry_record entries) = true.
Proof.
  induction entries as [| e entries IH]; [reflexivity |].
  cbn [forallb map]. intros H. apply andb_true_iff in H as [He Hes].
  rewrite (IH Hes). destruct e; try discriminate. reflexivity.
Qed.

Variables (key city units : string) (net : network) (log : list event).

(** X13: the two truncations compose to the smaller count: for counts
    that are not negative, the text of what [fetch_weather_forecast]
    returned for [cnt] and [pretty_forecast] shows for [show_n] has the
    lines of the first [min cnt show_n] upstream entries, or is the
    placeholder when there is none. *)
Theorem fetch_then_show_takes_smaller_count (cnt show_n : Z) (r : response)
    (d : dict) (raw : list pyval) :
  net log (forecast_request key city units) = Responded r ->
  is_2xx r = true ->
  resp_body r = JsonBody (PDict d) ->
  lookup "list" d = Some (PList raw) ->
  forallb weather_shaped raw = true ->
  absent_or is_dict d "city" = true ->
  0 <= cnt ->
  0 <= show_n ->
  exists fc,
    fetch_weather_forecast key city cnt units net log
    = (Returned fc, (log ++ [EGet (forecast_request key city units)])%list)
    /\ pretty_forecast fc show_n
       = Returned
           (match firstn (Z.to_nat (Z.min cnt show_n)) raw with
            | [] => "No forecast data."
            | _ :: _ =>
                String.concat newline
                  (map (fun entry => rendered_line (entry_record entry))
                     (firstn (Z.to_nat (Z.min cnt show_n)) raw))
            end).
Proof.
  intros Hnet H2xx Hbody Hlist Hall Hcity Hcnt Hshow.
  eexists. split.
  - apply (fetch_weather_forecast_shaped key city units net log cnt r d raw);
      assumption.
  - rewrite (pretty_forecast_records _ (map entry_record (slice_to cnt raw)) show_n);
      [| reflexivity | reflexivity
       | apply entry_record_is_dict, forallb_slice_to; exact Hall].
    rewrite slice_to_map, slice_to_twice by assumption.
    rewrite map_map.
    destruct (firstn (Z.to_nat (Z.min cnt show_n)) raw); reflexivity.
Qed.
End MorePresenterFacts.

(* ================================================================== *)
(** ** More on the process *)
(* ================================================================== *)

Section MoreProcessFacts.
Context {rt : PyRuntime}.
Variables (net : network) (env dotenv : environ) (a : args).

(** X14: with a credential that is not empty in the loaded environment,
    the module body raises nothing and the run is the run of [main] with
    that credential sent as appid; it ends normally. *)
Theorem run_with_credential (key : string) :
  os_getenv (load_dotenv dotenv env) "OPENWEATHER_API_KEY" = Some key ->
  key <> "" ->
  run net env dotenv a = main key a net []
  /\ fst (run net env dotenv a) = Returned tt
  /\ exists rest,
       snd (run net env dotenv a)
       = EGet {| req_url := "https://api.openweathermap.org/data/2.5/weather";
                 req_params := [("q", arg_city a); ("appid", key);
                                ("units", "metric")];
                 req_timeout := 10 |} :: rest.
Proof.
  intros Hkey Hne.
  assert (Hrun : run net env dotenv a = main key a net []).
  { unfold run, script. rewrite Hkey. cbn [falsy].
    destruct (String.eqb_spec key "") as [-> | _]; [congruence | reflexivity]. }
  rewrite Hrun, main_run. repeat split.
  unfold main_trace. eexists. reflexivity.
Qed.
End MoreProcessFacts.

(* ================================================================== *)
(** ** The further properties on concrete inputs *)
(* ================================================================== *)

Lemma forecast_reads_only_kept_entries_witness :
  fetch_weather_forecast "k" "Lahore" 1 "metric"
    (always (Responded (ok (PDict broken_forecast)))) []
  = (Returned [("city", PStr "Lahore"); ("country", PNone);
               ("forecasts",
                PList [entry_record (forecast_item "2024-01-01 00:00:00" 5)])],
     [EGet (forecast_request "k" "Lahore" "metric")]).
Proof.
  apply (forecast_reads_only_kept_entries
           "k" "Lahore" "metric"
           (always (Responded (ok (PDict broken_forecast)))) []
           1 (ok (PDict broken_forecast)) broken_forecast
           [forecast_item "2024-01-01 00:00:00" 5; PNone]
           eq_refl eq_refl eq_refl eq_refl eq_refl eq_refl).
Defined.

Lemma forecast_bad_entry_raises_witness :
  exists e,
    fetch_weather_forecast "k" "Lahore" 2 "metric"
      (always (Responded (ok (PDict broken_forecast)))) []
    = (Raised e, [EGet (forecast_request "k" "Lahore" "metric")]).
Proof.
  apply (forecast_bad_entry_raises
           "k" "Lahore" "metric"
           (always (Responded (ok (PDict broken_forecast)))) []
           2 (ok (PDict broken_forecast)) broken_forecast
           [forecast_item "2024-01-01 00:00:00" 5; PNone]
           eq_refl eq_refl eq_refl eq_refl).
  discriminate.
Defined.

Lemma forecast_at_most_count_witness :
  exists forecasts,
    lookup "forecasts"
      [("city", PStr "Lahore"); ("country", PStr "PK");
       ("forecasts",
        PList [entry_record (forecast_item "2024-01-01 00:00:00" 5)])]
    = Some (PList forecasts)
    /\ Z.of_nat (List.length forecasts) <= 1.
Proof.
  apply (forecast_at_most_count
           "k" "Lahore" "metric"
           (always (Responded (ok (PDict two_item_forecast)))) []
           1 _ [EGet (forecast_request "k" "Lahore" "metric")]).
  - lia.
  - reflexivity.
  - reflexivity.
Defined.

Lemma current_reads_only_its_keys_witness :
  fetch_weather_current "k" "Karachi" "metric"
    (always (Responded (ok (PDict karachi_report)))) []
  = fetch_weather_current "k" "Karachi" "metric"
      (always (Responded (ok (PDict karachi_report_primary)))) [].
Proof.
  apply (current_reads_only_its_keys
           "k" "Karachi" "metric"
           (always (Responded (ok (PDict karachi_report)))) []
           (always (Responded (ok (PDict karachi_report_primary))))
           (ok (PDict karachi_report)) (ok (PDict karachi_report_primary))
           karachi_report karachi_report_primary
           eq_refl eq_refl eq_refl eq_refl eq_refl eq_refl).
  - intros k Hk. cbn in Hk.
    destruct Hk as [<- | [<- | [<- | [<- | []]]]]; reflexivity.
  - right. eexists _, _, _. split; reflexivity.
Defined.

Lemma pretty_current_needs_every_key_witness :
  pretty_current [("city", PStr "Lahore"); ("temp", PInt 31)]
  = Raised (KeyError (PStr "country")).
Proof.
  apply (pretty_current_needs_every_key
           [("city", PStr "Lahore"); ("temp", PInt 31)] eq_refl).
Defined.

Lemma pretty_forecast_needs_objects_witness :
  pretty_forecast [("forecasts", PList [PDict []; PInt 7])] 5
  = Raised (AttributeError "'int' object has no attribute 'get'").
Proof.
  apply (pretty_forecast_needs_objects
           [("forecasts", PList [PDict []; PInt 7])] [PDict []; PInt 7] 5
           eq_refl eq_refl).
Defined.

Lemma fetch_then_show_takes_smaller_count_witness :
  exists fc,
    fetch_weather_forecast "k" "Lahore" 2 "metric"
      (always (Responded (ok (PDict two_item_forecast)))) []
    = (Returned fc, [EGet (forecast_request "k" "Lahore" "metric")])
    /\ pretty_forecast fc 1 = Returned "2024-01-01 00:00:00: 5°C, clear sky".
Proof.
  apply (fetch_then_show_takes_smaller_count
           "k" "Lahore" "metric"
           (always (Responded (ok (PDict two_item_forecast)))) []
           2 1 (ok (PDict two_item_forecast)) two_item_forecast two_items
           eq_refl eq_refl eq_refl eq_refl eq_refl eq_refl);
    lia.
Defined.

Lemma run_with_credential_witness :
  fst (run (always (Responded not_found)) [("HOME", "/root")]
         [("OPENWEATHER_API_KEY", "0123456789abcdef")] (lahore_args true 5))
  = Returned tt.
Proof.
  apply (proj1 (proj2 (run_with_credential
                         (always (Responded not_found)) [("HOME", "/root")]
                         [("OPENWEATHER_API_KEY", "0123456789abcdef")]
                         (lahore_args true 5) "0123456789abcdef"
                         eq_refl ltac:(discriminate)))).
Defined.
